(** * Nft_marketplace: the upload route and the mint page

    A shallow embedding of the two TypeScript sources of the front end:

    - the upload route ([POST /api/upload], the second document of
      [src/app/frontend/app/layout.tsx]): [mustEnv], [randomKey],
      [getCidByHead] and [POST];
    - the mint page ([src/app/frontend/app/page.tsx]): [uploadToStorage],
      [mintNft] and the button that starts them.

    JavaScript strings are modelled as Rocq [string]s holding the UTF-8
    encoding of the text.  The object store, the clock, the random source
    and the process environment are the fields of a [World]; the handler is
    written in a small state-and-exception monad whose state logs every
    command sent to the store. *)

From Stdlib Require Import ZArith Ascii String Lia.
From stdpp Require Import base option list strings pretty gmap.

Local Open Scope Z_scope.

(** ** JavaScript strings *)

Module Js.

Definition quote_char : ascii := ascii_of_nat 34.
Definition LF : string := String (ascii_of_nat 10) "".

(** [!s] on a string: only the empty string is falsy. *)
Definition truthy (s : string) : bool :=
  match s with EmptyString => false | String _ _ => true end.

(** [!v] on a [string | undefined]. *)
Definition truthy_opt (v : option string) : bool :=
  match v with Some s => truthy s | None => false end.

(** [a || b] on [string | undefined] operands. *)
Definition or (a b : option string) : option string :=
  if truthy_opt a then a else b.

Definition byte_is (c : ascii) (n : nat) : bool := Nat.eqb (nat_of_ascii c) n.

(** The one-byte members of the ECMAScript WhiteSpace and LineTerminator
    classes: TAB, LF, VT, FF, CR and SPACE. *)
Definition is_ws1 (c : ascii) : bool :=
  match nat_of_ascii c with
  | 9 | 10 | 11 | 12 | 13 | 32 => true
  | _ => false
  end%nat.

(** U+00A0 is encoded as C2 A0. *)
Definition is_ws2 (c1 c2 : ascii) : bool :=
  byte_is c1 194 && byte_is c2 160.

(** The three-byte members: U+1680, U+2000..U+200A, U+2028, U+2029, U+202F,
    U+205F, U+3000 and U+FEFF. *)
Definition is_ws3 (c1 c2 c3 : ascii) : bool :=
  let n3 := nat_of_ascii c3 in
  (byte_is c1 225 && byte_is c2 154 && byte_is c3 128)
  || (byte_is c1 226 && byte_is c2 128
      && ((Nat.leb 128 n3 && Nat.leb n3 138)
          || byte_is c3 168 || byte_is c3 169 || byte_is c3 175))
  || (byte_is c1 226 && byte_is c2 129 && byte_is c3 159)
  || (byte_is c1 227 && byte_is c2 128 && byte_is c3 128)
  || (byte_is c1 239 && byte_is c2 187 && byte_is c3 191).

Fixpoint rev_onto (s acc : string) : string :=
  match s with
  | EmptyString => acc
  | String c r => rev_onto r (String c acc)
  end.

Definition rev (s : string) : string := rev_onto s "".

(** Drops the white space at the front of [s].  With [backwards] the bytes
    of [s] are read in reverse order, which is how [trim] looks at the end
    of a string. *)
Fixpoint drop_ws (backwards : bool) (s : string) : string :=
  match s with
  | EmptyString => s
  | String c1 r1 =>
      if is_ws1 c1 then drop_ws backwards r1 else
      match r1 with
      | EmptyString => s
      | String c2 r2 =>
          if (if backwards then is_ws2 c2 c1 else is_ws2 c1 c2)
          then drop_ws backwards r2 else
          match r2 with
          | EmptyString => s
          | String c3 r3 =>
              if (if backwards then is_ws3 c3 c2 c1 else is_ws3 c1 c2 c3)
              then drop_ws backwards r3 else s
          end
      end
  end.

(** [String.prototype.trim]. *)
Definition trim (s : string) : string :=
  rev (drop_ws true (rev (drop_ws false s))).

Fixpoint drop_quotes (s : string) : string :=
  match s with
  | EmptyString => s
  | String c r => if byte_is c 34 then drop_quotes r else s
  end.

(** [s.replace(/^"+|"+$/g, "")]: the leading run of double quotes goes,
    then the trailing run of what is left. *)
Definition strip_quotes (s : string) : string :=
  rev (drop_quotes (rev (drop_quotes s))).

(** [s.replace(/\s+/g, "_")]: every maximal run of white space becomes one
    underscore.  [in_run] tells that the previous character was white
    space. *)
Fixpoint replace_ws_runs (in_run : bool) (s : string) : string :=
  let mark := if in_run then "" else "_" in
  match s with
  | EmptyString => ""
  | String c1 r1 =>
      if is_ws1 c1 then mark +:+ replace_ws_runs true r1 else
      match r1 with
      | EmptyString => String c1 ""
      | String c2 r2 =>
          if is_ws2 c1 c2 then mark +:+ replace_ws_runs true r2 else
          match r2 with
          | EmptyString => String c1 (replace_ws_runs false r1)
          | String c3 r3 =>
              if is_ws3 c1 c2 c3 then mark +:+ replace_ws_runs true r3
              else String c1 (replace_ws_runs false r1)
          end
      end
  end.

(** [s.slice(n)] for a non-negative [n]. *)
Fixpoint slice (n : nat) (s : string) : string :=
  match n, s with
  | O, _ => s
  | S n', String _ r => slice n' r
  | S _, EmptyString => ""
  end.

(** [s.startsWith(p)]. *)
Definition startsWith (s p : string) : bool := String.prefix p s.

(** [s.includes(p)]. *)
Fixpoint includes (s p : string) : bool :=
  String.prefix p s
  || match s with
     | EmptyString => false
     | String _ r => includes r p
     end.

End Js.

(** ** JSON values and [JSON.stringify] *)

#[local] Set Warnings "-register-all".

Inductive JSON : Type :=
| JString (s : string)
| JArray (items : list JSON)
| JObject (members : list (string * JSON)).

Module Json.

Definition hex_digit (n : nat) : ascii :=
  match n with
  | 0 => "0" | 1 => "1" | 2 => "2" | 3 => "3" | 4 => "4" | 5 => "5"
  | 6 => "6" | 7 => "7" | 8 => "8" | 9 => "9" | 10 => "a" | 11 => "b"
  | 12 => "c" | 13 => "d" | 14 => "e" | _ => "f"
  end%char%nat.

Definition backslash : ascii := ascii_of_nat 92.

(** The escape of one character inside a JSON string literal. *)
Definition escape_char (c : ascii) : string :=
  let n := nat_of_ascii c in
  match n with
  | 8 => String backslash "b"
  | 9 => String backslash "t"
  | 10 => String backslash "n"
  | 12 => String backslash "f"
  | 13 => String backslash "r"
  | 34 => String backslash (String Js.quote_char "")
  | 92 => String backslash (String backslash "")
  | _ =>
      if Nat.ltb n 32
      then String backslash
             ("u00" +:+ String (hex_digit (Nat.div n 16))
                               (String (hex_digit (Nat.modulo n 16)) ""))
      else String c ""
  end%nat.

Fixpoint escape (s : string) : string :=
  match s with
  | EmptyString => ""
  | String c r => escape_char c +:+ escape r
  end.

(** QuoteJSONString of ECMA-262. *)
Definition quote (s : string) : string :=
  String Js.quote_char (escape s +:+ String Js.quote_char "").

Fixpoint join (sep : string) (parts : list string) : string :=
  match parts with
  | [] => ""
  | [p] => p
  | p :: rest => p +:+ sep +:+ join sep rest
  end.

(** The common end of SerializeJSONObject and SerializeJSONArray:
    [stepback] is the indentation of the enclosing value. *)
Definition wrap (opening closing gap stepback : string) (partial : list string)
  : string :=
  let indent := stepback +:+ gap in
  match partial with
  | [] => opening +:+ closing
  | _ =>
      if Js.truthy gap
      then opening +:+ Js.LF +:+ indent
           +:+ join ("," +:+ Js.LF +:+ indent) partial
           +:+ Js.LF +:+ stepback +:+ closing
      else opening +:+ join "," partial +:+ closing
  end.

Fixpoint serialize (gap stepback : string) (j : JSON) {struct j} : string :=
  let indent := stepback +:+ gap in
  match j with
  | JString s => quote s
  | JArray items => wrap "[" "]" gap stepback (map (serialize gap indent) items)
  | JObject members =>
      wrap "{" "}" gap stepback
        (map (fun '(k, v) =>
                quote k +:+ ":" +:+ (if Js.truthy gap then " " else "")
                +:+ serialize gap indent v)
             members)
  end.

(** [JSON.stringify(value)]. *)
Definition stringify (j : JSON) : string := serialize "" "" j.

(** [JSON.stringify(value, null, 2)]. *)
Definition stringify2 (j : JSON) : string := serialize "  " "" j.

End Json.

(** ** The upload route *)

Module Route.

(** *** Values that cross the route's boundary *)

(** A thrown JavaScript value, as far as the handler looks at it:
    [e?.message]. *)
Record Exn : Type := { message : option string }.

(** [new Error(msg)]. *)
Definition Error (msg : string) : Exn := {| message := Some msg |}.

(** How an awaited call ends. *)
Inductive Completion (A : Type) : Type :=
| Normal (a : A)
| Throw (e : Exn).
Arguments Normal {A} a.
Arguments Throw {A} e.

(** An uploaded file: [file.name], [file.type], and the bytes that
    [file.arrayBuffer()] resolves to. *)
Record File : Type := {
  file_name : string;
  file_type : string;
  file_bytes : list Byte.byte;
}.

(** An entry of a [FormData]: a text field or an uploaded file. *)
Inductive FormDataEntryValue : Type :=
| EntryString (s : string)
| EntryFile (f : File).

Definition FormData : Type := list (string * FormDataEntryValue).

(** [form.get(name)]: the first entry of that name, or [null]. *)
Fixpoint form_get (form : FormData) (name : string) : option FormDataEntryValue :=
  match form with
  | [] => None
  | (k, v) :: rest => if String.eqb k name then Some v else form_get rest name
  end.

(** The request, as far as the handler reads it: what [req.formData()]
    resolves to, or the value it rejects with. *)
Record Request : Type := { formData : Completion FormData }.

Record Response : Type := {
  status : Z;
  headers : list (string * string);
  body : string;
}.

(** *** The object store *)

Record S3Client : Type := {
  endpoint : string;
  region : string;
  accessKeyId : string;
  secretAccessKey : string;
  forcePathStyle : bool;
}.

Inductive Command : Type :=
| PutObjectCommand (Bucket Key : string) (Body : list Byte.byte) (ContentType : string)
| HeadObjectCommand (Bucket Key : string).

(** [$metadata] of a command output. *)
Record ResponseMetadata : Type := { httpHeaders : option (gmap string string) }.

(** What [s3.send] resolves to, as far as the handler reads it. *)
Record Output : Type := {
  Metadata : option (gmap string string);
  metadata' : option ResponseMetadata;
}.

Abbreviation Call := (S3Client * Command)%type.

(** Everything outside the handler.  The store answers a command knowing
    the commands sent before it; the clock and the random source answer
    their n-th reading. *)
Record World : Type := {
  process_env : gmap string string;
  Date_now : nat -> Z;
  Math_random_toString16 : nat -> string;
  send : list Call -> S3Client -> Command -> Completion Output;
}.

(** What one run of the handler leaves behind. *)
Record Trace : Type := {
  sent : list Call;
  clock_reads : nat;
  random_reads : nat;
  console_error : list Exn;
}.

Definition start : Trace :=
  {| sent := []; clock_reads := 0; random_reads := 0; console_error := [] |}.

(** *** The monad of the handler *)

Definition M (A : Type) : Type := Trace -> Trace * Completion A.

Definition ret {A} (a : A) : M A := fun t => (t, Normal a).

Definition bind {A B} (m : M A) (k : A -> M B) : M B :=
  fun t =>
    match m t with
    | (t', Normal a) => k a t'
    | (t', Throw e) => (t', Throw e)
    end.

Definition throw {A} (e : Exn) : M A := fun t => (t, Throw e).

(** [await p] where [p] is already settled. *)
Definition await {A} (c : Completion A) : M A := fun t => (t, c).

(** [try { m } catch (e) { h e }]. *)
Definition try_catch {A} (m : M A) (h : Exn -> M A) : M A :=
  fun t =>
    match m t with
    | (t', Normal a) => (t', Normal a)
    | (t', Throw e) => h e t'
    end.

#[local] Notation "'let*' x ':=' m 'in' k" := (bind m (fun x => k))
  (at level 10, x name, m at level 100, k at level 200).

(** *** Small pieces of JavaScript used by the handler *)

(** [a || "literal"] where the literal is the value when [a] is falsy. *)
Definition or_default (a : option string) (d : string) : string :=
  match a with
  | Some s => if Js.truthy s then s else d
  | None => d
  end.

(** [(form.get(k) as string) || d]: the cast does nothing at run time, so
    a file entry, being an object, is kept. *)
Definition entry_or (v : option FormDataEntryValue) (d : string)
  : FormDataEntryValue :=
  match v with
  | Some (EntryString s) => EntryString (if Js.truthy s then s else d)
  | Some (EntryFile f) => EntryFile f
  | None => EntryString d
  end.

(** [!v] on what [form.get] returns. *)
Definition entry_truthy (v : option FormDataEntryValue) : bool :=
  match v with
  | Some (EntryString s) => Js.truthy s
  | Some (EntryFile _) => true
  | None => false
  end.

(** A form entry as [JSON.stringify] sees it: a [File] has no enumerable
    property of its own. *)
Definition json_of_entry (v : FormDataEntryValue) : JSON :=
  match v with
  | EntryString s => JString s
  | EntryFile _ => JObject []
  end.

(** A [string | undefined] inside a template literal. *)
Definition template (v : option string) : string :=
  match v with
  | Some s => s
  | None => "undefined"
  end.

(** [new Response(JSON.stringify(j), { status, headers })]. *)
Definition json_response (st : Z) (j : JSON) : Response :=
  {| status := st;
     headers := [("Content-Type", "application/json")];
     body := Json.stringify j |}.

(** [Buffer.from(s, "utf-8")]. *)
Definition Buffer_from (s : string) : list Byte.byte :=
  String.list_byte_of_string s.

(** [out?.$metadata?.httpHeaders || {}]. *)
Definition headers_or_empty (out : Output) : gmap string string :=
  default ∅ (m ← metadata' out; httpHeaders m).

(** [out?.$metadata?.httpHeaders?.[k]]. *)
Definition http_header (out : Output) (k : string) : option string :=
  h ← (m ← metadata' out; httpHeaders m); h !! k.

(** [out?.Metadata?.[k]]. *)
Definition object_metadata (out : Output) (k : string) : option string :=
  m ← Metadata out; m !! k.

(** The TypeError of V8 for a method read on [undefined]. *)
Definition TypeError_undefined (method : string) : Exn :=
  Error ("Cannot read properties of undefined (reading '" +:+ method +:+ "')").

Definition error_cid_missing : string :=
  "CID missing from upload response (even after HeadObject). নিশ্চিত হন Filebase bucket backend = IPFS এবং endpoint = https://s3.filebase.com".

Definition hint_cid_missing : string :=
  "Filebase dashboard → Buckets → select bucket → backend/network must be IPFS. If not, create a new IPFS bucket.".

Definition error_meta_cid_missing : string :=
  "Metadata CID missing (even after HeadObject). Bucket IPFS-backed না হলে CID পাওয়া যাবে না।".

Section Handler.

Context (W : World).

(** [mustEnv] *)
Definition mustEnv (key : string) : M string :=
  let v := process_env W !! key in
  if negb (Js.truthy_opt v)
  then throw (Error ("Missing " +:+ key +:+ " in .env.local"))
  else ret (Js.strip_quotes (Js.trim (template v))).

(** [Date.now()] *)
Definition Date_now' : M Z :=
  fun t =>
    ({| sent := sent t; clock_reads := S (clock_reads t);
        random_reads := random_reads t; console_error := console_error t |},
     Normal (Date_now W (clock_reads t))).

(** [Math.random().toString(16)] *)
Definition Math_random_toString16' : M string :=
  fun t =>
    ({| sent := sent t; clock_reads := clock_reads t;
        random_reads := S (random_reads t); console_error := console_error t |},
     Normal (Math_random_toString16 W (random_reads t))).

(** [console.error("UPLOAD ROUTE ERROR:", e)] *)
Definition console_error' (e : Exn) : M unit :=
  fun t =>
    ({| sent := sent t; clock_reads := clock_reads t;
        random_reads := random_reads t;
        console_error := console_error t ++ [e] |},
     Normal tt).

(** [await s3.send(cmd)]: the command is logged, then the store answers. *)
Definition s3_send (s3 : S3Client) (cmd : Command) : M Output :=
  fun t =>
    ({| sent := sent t ++ [(s3, cmd)]; clock_reads := clock_reads t;
        random_reads := random_reads t; console_error := console_error t |},
     send W (sent t) s3 cmd).

(** [randomKey] *)
Definition randomKey (prefix filename : string) : M string :=
  let safe := Js.replace_ws_runs false filename in
  let* now := Date_now' in
  let* rnd := Math_random_toString16' in
  ret (prefix +:+ "/" +:+ pretty now +:+ "-" +:+ Js.slice 2 rnd +:+ "-" +:+ safe).

(** [getCidByHead] *)
Definition getCidByHead (s3 : S3Client) (bucket key : string)
  : M (option string) :=
  let* head := s3_send s3 (HeadObjectCommand bucket key) in
  let cid :=
    Js.or (Js.or (Js.or (object_metadata head "cid")
                        (object_metadata head "CID"))
                 (http_header head "x-amz-meta-cid"))
          (http_header head "X-Amz-Meta-Cid") in
  ret cid.

(** The body of the [try] block of [POST]. *)
Definition POST_try (req : Request) : M Response :=
  let* accessKeyId := mustEnv "FILEBASE_ACCESS_KEY" in
  let* secretAccessKey := mustEnv "FILEBASE_SECRET_KEY" in
  let* bucket := mustEnv "FILEBASE_BUCKET" in
  let* endpoint := mustEnv "FILEBASE_S3_ENDPOINT" in
  let* gateway := mustEnv "FILEBASE_GATEWAY" in

  let* form := await (formData req) in
  let file := form_get form "file" in
  let name := entry_or (form_get form "name") "My NFT" in
  let description := entry_or (form_get form "description") "" in

  if negb (entry_truthy file)
  then ret (json_response 400 (JObject [("error", JString "File missing")]))
  else
  match file with
  | Some (EntryFile file) =>
  if negb (Js.startsWith (file_type file) "image/")
  then ret (json_response 400
              (JObject [("error", JString "Only image files are allowed")]))
  else

  let s3 := {| endpoint := endpoint; region := "us-east-1";
               accessKeyId := accessKeyId; secretAccessKey := secretAccessKey;
               forcePathStyle := true |} in

  (* ---- 1) Upload Image ---- *)
  let* imgKey := randomKey "images" (file_name file) in
  let imgBytes := file_bytes file in
  let* putImg := s3_send s3 (PutObjectCommand bucket imgKey imgBytes (file_type file)) in

  (* Try CID from PutObject headers first *)
  let imgHeaders := headers_or_empty putImg in
  let imgCid := Js.or (imgHeaders !! "x-amz-meta-cid")
                      (imgHeaders !! "X-Amz-Meta-Cid") in
  (* If not found, use HeadObject *)
  let* imgCid := (if negb (Js.truthy_opt imgCid)
                  then getCidByHead s3 bucket imgKey
                  else ret imgCid) in

  if negb (Js.truthy_opt imgCid)
  then ret (json_response 500
              (JObject [("error", JString error_cid_missing);
                        ("hint", JString hint_cid_missing)]))
  else

  let imageIpfs := "ipfs://" +:+ template imgCid in
  let imageGatewayUrl := gateway +:+ "/" +:+ template imgCid in

  (* ---- 2) Create & Upload metadata.json ---- *)
  let metadata :=
    JObject [
      ("name", json_of_entry name);
      ("description", json_of_entry description);
      ("image", JString imageIpfs);
      ("properties",
        JObject [
          ("files", JArray [JObject [("uri", JString imageIpfs);
                                     ("type", JString (file_type file))]]);
          ("category", JString "image")
        ])
    ] in
  let* metaKey := randomKey "metadata" "metadata.json" in
  let metaBody := Buffer_from (Json.stringify2 metadata) in
  let* putMeta := s3_send s3 (PutObjectCommand bucket metaKey metaBody "application/json") in

  let metaHeaders := headers_or_empty putMeta in
  let metaCid := Js.or (metaHeaders !! "x-amz-meta-cid")
                       (metaHeaders !! "X-Amz-Meta-Cid") in
  let* metaCid := (if negb (Js.truthy_opt metaCid)
                   then getCidByHead s3 bucket metaKey
                   else ret metaCid) in

  if negb (Js.truthy_opt metaCid)
  then ret (json_response 500 (JObject [("error", JString error_meta_cid_missing)]))
  else

  let metadataUrl := "ipfs://" +:+ template metaCid in
  let metadataGatewayUrl := gateway +:+ "/" +:+ template metaCid in
  ret (json_response 200
         (JObject [("metadataUrl", JString metadataUrl);
                   ("metadataGatewayUrl", JString metadataGatewayUrl);
                   ("imageIpfs", JString imageIpfs);
                   ("imageGatewayUrl", JString imageGatewayUrl)]))

  | _ =>
      (* a text field named [file]: [file.type] is [undefined] *)
      throw (TypeError_undefined "startsWith")
  end.

(** [POST] *)
Definition POST (req : Request) : M Response :=
  try_catch (POST_try req)
    (fun e =>
       let* _ := console_error' e in
       ret (json_response 500
              (JObject [("error", JString (or_default (message e) "Upload failed"))]))).

End Handler.

(** *** Loading the route module *)

(** What the file exports. *)
Record RouteModule : Type := {
  runtime : string;
  export_POST : Request -> M Response;
}.

(** Evaluating the file when the server loads the route: its top level
    binds [runtime] and declares [mustEnv], [randomKey], [getCidByHead]
    and [POST]; no statement of it reads [process.env]. *)
Definition load_module (W : World) : Completion RouteModule :=
  Normal {| runtime := "nodejs"; export_POST := POST W |}.

(** *** Vocabulary of the statements *)

(** The configuration keys, in the order [POST] looks them up. *)
Definition required_keys : list string :=
  ["FILEBASE_ACCESS_KEY"; "FILEBASE_SECRET_KEY"; "FILEBASE_BUCKET";
   "FILEBASE_S3_ENDPOINT"; "FILEBASE_GATEWAY"].

(** A configuration value is present when [mustEnv] accepts it. *)
Definition present (W : World) (key : string) : bool :=
  Js.truthy_opt (process_env W !! key).

Definition all_present (W : World) : bool := forallb (present W) required_keys.

(** The value [mustEnv] returns for a key that is present. *)
Definition configured (W : World) (key : string) : string :=
  Js.strip_quotes (Js.trim (template (process_env W !! key))).

(** The client [POST] builds from the configuration. *)
Definition s3_client (W : World) : S3Client :=
  {| endpoint := configured W "FILEBASE_S3_ENDPOINT";
     region := "us-east-1";
     accessKeyId := configured W "FILEBASE_ACCESS_KEY";
     secretAccessKey := configured W "FILEBASE_SECRET_KEY";
     forcePathStyle := true |}.

(** The trace after [console.error(..., e)]. *)
Definition logged (e : Exn) (t : Trace) : Trace :=
  {| sent := sent t; clock_reads := clock_reads t;
     random_reads := random_reads t;
     console_error := console_error t ++ [e] |}.

(** The request carries a binary file under [file]. *)
Definition file_payload (req : Request) : option File :=
  match formData req with
  | Normal form =>
      match form_get form "file" with
      | Some (EntryFile f) => Some f
      | _ => None
      end
  | Throw _ => None
  end.

(** The body is a JSON object whose first member is a string [error]. *)
Definition has_error_field (r : Response) : Prop :=
  exists msg rest,
    body r = Json.stringify (JObject (("error", JString msg) :: rest)).

Definition error_mentions (r : Response) (what : string) : Prop :=
  exists msg rest,
    body r = Json.stringify (JObject (("error", JString msg) :: rest))
    /\ Js.includes msg what = true.

Definition is_put (c : Call) : bool :=
  match c.2 with
  | PutObjectCommand _ _ _ _ => true
  | HeadObjectCommand _ _ => false
  end.

(** The writes among the commands of a trace, in order. *)
Definition puts (t : Trace) : list Call := List.filter is_put (sent t).

(** The identifier in the transport metadata of a put response. *)
Definition cid_of_put (out : Output) : option string :=
  Js.or (headers_or_empty out !! "x-amz-meta-cid")
        (headers_or_empty out !! "X-Amz-Meta-Cid").

(** The identifier in the answer of a HEAD query. *)
Definition cid_of_head (out : Output) : option string :=
  Js.or (Js.or (Js.or (object_metadata out "cid") (object_metadata out "CID"))
               (http_header out "x-amz-meta-cid"))
        (http_header out "X-Amz-Meta-Cid").

(** What the store answered to the [i]-th command of a trace. *)
Definition answer (W : World) (t : Trace) (i : nat) : option Output :=
  match sent t !! i with
  | Some (s3, cmd) =>
      match send W (take i (sent t)) s3 cmd with
      | Normal out => Some out
      | Throw _ => None
      end
  | None => None
  end.

(** The two-tier resolution in the words of the specification, read off a
    trace whose [i]-th command is a write: the identifier of the write's
    own answer if it has one, else the identifier of the answer to the
    command that follows. *)
Definition resolved (W : World) (t : Trace) (i : nat) : option string :=
  match answer W t i with
  | Some out =>
      if Js.truthy_opt (cid_of_put out) then cid_of_put out
      else match answer W t (S i) with
           | Some head => cid_of_head head
           | None => None
           end
  | None => None
  end.



(** The metadata document [POST] builds from the fields of the form, the
    image URI and the MIME type of the file. *)
Definition metadata_document (name description : FormDataEntryValue)
    (imageIpfs type : string) : JSON :=
  JObject [
    ("name", json_of_entry name);
    ("description", json_of_entry description);
    ("image", JString imageIpfs);
    ("properties",
      JObject [
        ("files", JArray [JObject [("uri", JString imageIpfs); ("type", JString type)]]);
        ("category", JString "image")
      ])
  ].

(** The body of the 200 response. *)
Definition upload_result (gateway imgCid metaCid : string) : JSON :=
  JObject [("metadataUrl", JString ("ipfs://" +:+ metaCid));
           ("metadataGatewayUrl", JString (gateway +:+ "/" +:+ metaCid));
           ("imageIpfs", JString ("ipfs://" +:+ imgCid));
           ("imageGatewayUrl", JString (gateway +:+ "/" +:+ imgCid))].

End Route.

(** ** The mint page *)

Module Page.

(** A rejection value, as far as the page looks at it: [e?.message] and
    [String(e)]. *)
Record Exn : Type := { message : option string; toString : string }.

(** [new Error(msg)]. *)
Definition Error (msg : string) : Exn :=
  {| message := Some msg;
     toString := if Js.truthy msg then "Error: " +:+ msg else "Error" |}.

Record File : Type := { file_name : string; file_size : Z }.

Record PublicKey : Type := { toBase58 : string }.

(** [Metaplex.make(connection).use(walletAdapterIdentity(wallet))] *)
Inductive Metaplex : Type := Metaplex_make (identity : PublicKey).

(** The [useState] cells of [Page] and what [useWallet] reports. *)
Record State : Type := {
  wallet_connected : bool;
  wallet_publicKey : option PublicKey;
  name : string;
  description : string;
  file : option File;
  status : string;
  busy : bool;
  mintAddress : option string;
  metadataUrl : option string;
  metadataGatewayUrl : option string;
  imageGatewayUrl : option string;
}.

(** The parsed body of the upload response, read through the fields the
    page declares in [UploadResponse]; [data_error] is [data?.error]. *)
Record UploadResponse : Type := {
  data_error : option string;
  data_metadataUrl : option string;
  data_metadataGatewayUrl : option string;
  data_imageGatewayUrl : option string;
}.

(** The response of [fetch]: [res.ok], [res.status], [await res.text()] and
    what [JSON.parse] makes of that text ([None] when it throws). *)
Record HttpResponse : Type := {
  res_ok : bool;
  res_status : Z;
  res_text : string;
  res_parse : option UploadResponse;
}.

Inductive Settled (A : Type) : Type :=
| Resolved (a : A)
| Rejected (e : Exn).
Arguments Resolved {A} a.
Arguments Rejected {A} e.

(** The calls that leave the page. *)
Inductive Outgoing : Type :=
| FetchUpload (file : File) (name description : string)
| NftsCreate (uri name : string) (sellerFeeBasisPoints : Z).

(** A run of [mintNft] suspended at one of its [await]s: the [fetch] of
    [uploadToStorage] together with the [res.text()] that follows it (nothing
    of the page runs between the two), or [metaplex.nfts().create].  The
    closure keeps the [name] of the render in which the button was clicked. *)
Inductive Task : Type :=
| AwaitUpload (name : string)
| AwaitCreate.

Record System : Type := {
  ui : State;
  pending : list Task;
  outgoing : list Outgoing;
}.

Inductive Event : Type :=
| ChangeName (v : string)
| ChangeDescription (v : string)
| ChangeFile (f : option File)
| WalletChanged (connected : bool) (publicKey : option PublicKey)
| ClickMint
| FetchSettled (i : nat) (r : Settled HttpResponse)
| CreateSettled (i : nat) (r : Settled string).

Definition initial : System :=
  {| ui := {| wallet_connected := false; wallet_publicKey := None;
              name := "My NFT"; description := "Demo NFT on Devnet";
              file := None; status := ""; busy := false; mintAddress := None;
              metadataUrl := None; metadataGatewayUrl := None;
              imageGatewayUrl := None |};
     pending := []; outgoing := [] |}.

(** *** State setters *)

Definition setBusy (b : bool) (u : State) : State :=
  {| wallet_connected := wallet_connected u; wallet_publicKey := wallet_publicKey u;
     name := name u; description := description u; file := file u;
     status := status u; busy := b; mintAddress := mintAddress u;
     metadataUrl := metadataUrl u; metadataGatewayUrl := metadataGatewayUrl u;
     imageGatewayUrl := imageGatewayUrl u |}.

Definition setStatus (v : string) (u : State) : State :=
  {| wallet_connected := wallet_connected u; wallet_publicKey := wallet_publicKey u;
     name := name u; description := description u; file := file u;
     status := v; busy := busy u; mintAddress := mintAddress u;
     metadataUrl := metadataUrl u; metadataGatewayUrl := metadataGatewayUrl u;
     imageGatewayUrl := imageGatewayUrl u |}.

Definition setMintAddress (v : option string) (u : State) : State :=
  {| wallet_connected := wallet_connected u; wallet_publicKey := wallet_publicKey u;
     name := name u; description := description u; file := file u;
     status := status u; busy := busy u; mintAddress := v;
     metadataUrl := metadataUrl u; metadataGatewayUrl := metadataGatewayUrl u;
     imageGatewayUrl := imageGatewayUrl u |}.

Definition setName (v : string) (u : State) : State :=
  {| wallet_connected := wallet_connected u; wallet_publicKey := wallet_publicKey u;
     name := v; description := description u; file := file u;
     status := status u; busy := busy u; mintAddress := mintAddress u;
     metadataUrl := metadataUrl u; metadataGatewayUrl := metadataGatewayUrl u;
     imageGatewayUrl := imageGatewayUrl u |}.

Definition setDescription (v : string) (u : State) : State :=
  {| wallet_connected := wallet_connected u; wallet_publicKey := wallet_publicKey u;
     name := name u; description := v; file := file u;
     status := status u; busy := busy u; mintAddress := mintAddress u;
     metadataUrl := metadataUrl u; metadataGatewayUrl := metadataGatewayUrl u;
     imageGatewayUrl := imageGatewayUrl u |}.

Definition setFile (v : option File) (u : State) : State :=
  {| wallet_connected := wallet_connected u; wallet_publicKey := wallet_publicKey u;
     name := name u; description := description u; file := v;
     status := status u; busy := busy u; mintAddress := mintAddress u;
     metadataUrl := metadataUrl u; metadataGatewayUrl := metadataGatewayUrl u;
     imageGatewayUrl := imageGatewayUrl u |}.

Definition setWallet (connected : bool) (publicKey : option PublicKey) (u : State)
  : State :=
  {| wallet_connected := connected; wallet_publicKey := publicKey;
     name := name u; description := description u; file := file u;
     status := status u; busy := busy u; mintAddress := mintAddress u;
     metadataUrl := metadataUrl u; metadataGatewayUrl := metadataGatewayUrl u;
     imageGatewayUrl := imageGatewayUrl u |}.

(** [setMetadataUrl], [setMetadataGatewayUrl] and [setImageGatewayUrl] of
    [uploadToStorage], in one step. *)
Definition setLinks (m g i : option string) (u : State) : State :=
  {| wallet_connected := wallet_connected u; wallet_publicKey := wallet_publicKey u;
     name := name u; description := description u; file := file u;
     status := status u; busy := busy u; mintAddress := mintAddress u;
     metadataUrl := m; metadataGatewayUrl := g; imageGatewayUrl := i |}.

(** *** The handlers *)

(** [disabled={!wallet.connected || busy}] *)
Definition disabled (u : State) : bool := negb (wallet_connected u) || busy u.

(** The [useMemo] client: [null] exactly when there is no public key. *)
Definition metaplex (u : State) : option Metaplex :=
  match wallet_publicKey u with
  | None => None
  | Some k => Some (Metaplex_make k)
  end.

(** [x || null] on a [string | undefined]. *)
Definition or_null (v : option string) : option string :=
  if Js.truthy_opt v then v else None.

(** [text.slice(0, n)] on UTF-8 text: [n] counts UTF-16 code units, so a
    character outside the basic plane counts for two; cut in its middle it
    leaves its high surrogate, written here in the three-byte form. *)
Fixpoint slice_to (n : nat) (s : string) : string :=
  match n, s with
  | O, _ => ""
  | S _, EmptyString => ""
  | S n', String c1 r1 =>
      let b1 := nat_of_ascii c1 in
      if Nat.ltb b1 192 then String c1 (slice_to n' r1) else
      match r1 with
      | EmptyString => String c1 ""
      | String c2 r2 =>
          if Nat.ltb b1 224 then String c1 (String c2 (slice_to n' r2)) else
          match r2 with
          | EmptyString => String c1 (String c2 "")
          | String c3 r3 =>
              if Nat.ltb b1 240
              then String c1 (String c2 (String c3 (slice_to n' r3))) else
              match r3 with
              | EmptyString => String c1 (String c2 (String c3 ""))
              | String c4 r4 =>
                  match n' with
                  | S n'' =>
                      String c1 (String c2 (String c3 (String c4 (slice_to n'' r4))))
                  | O =>
                      let cp := ((N_of_ascii c1 - 240) * 262144
                                 + (N_of_ascii c2 - 128) * 4096
                                 + (N_of_ascii c3 - 128) * 64
                                 + (N_of_ascii c4 - 128))%N in
                      let hi := (55296 + (cp - 65536) / 1024)%N in
                      String (ascii_of_N (224 + hi / 4096))
                        (String (ascii_of_N (128 + (hi / 64) mod 64))
                           (String (ascii_of_N (128 + hi mod 64)) ""))
                  end
              end
          end
      end
  end.

(** The [.catch] of the button: [setBusy(false)] and the failure message. *)
Definition on_catch (e : Exn) (u : State) : State :=
  setStatus ("❌ " +:+ Route.or_default (message e) (toString e)) (setBusy false u).

(** A click that reaches [onClick]: [mintNft] up to its first [await],
    which is the [fetch] of [uploadToStorage], or up to the [throw] that
    the [.catch] of the button handles. *)
Definition onClick (s : System) : System :=
  let u := ui s in
  let failed e := {| ui := on_catch e u; pending := pending s; outgoing := outgoing s |} in
  if negb (wallet_connected u) || negb (bool_decide (is_Some (wallet_publicKey u)))
  then failed (Error "Connect wallet first (Phantom Devnet).")
  else if negb (bool_decide (is_Some (metaplex u)))
  then failed (Error "Metaplex not ready yet")
  else
  match file u with
  | None => failed (Error "Please select an image first")
  | Some f =>
      let u := setMintAddress None (setBusy true u) in
      (* uploadToStorage *)
      let u := setStatus "Uploading image + metadata to Filebase (IPFS)..." u in
      {| ui := u;
         pending := pending s ++ [AwaitUpload (name u)];
         outgoing := outgoing s ++ [FetchUpload f (name u) (description u)] |}
  end.

(** The button: a disabled button dispatches no click. *)
Definition click (s : System) : System :=
  if disabled (ui s) then s else onClick s.

(** [uploadToStorage] after its [fetch] has resolved: the state with the
    links set and the metadata URI, or the error it throws. *)
Definition uploadToStorage_resume (res : HttpResponse) (u : State)
  : State * Settled string :=
  let text := res_text res in
  match (if Js.truthy text then res_parse res
         else Some {| data_error := None; data_metadataUrl := None;
                      data_metadataGatewayUrl := None;
                      data_imageGatewayUrl := None |}) with
  | None =>
      (u, Rejected (Error ("Upload API returned non-JSON response." +:+ Js.LF
                           +:+ "Status: " +:+ pretty (res_status res) +:+ Js.LF
                           +:+ "Body: "
                           +:+ Route.or_default (Some (slice_to 300 text)) "(empty)")))
  | Some data =>
      if negb (res_ok res)
      then (u, Rejected (Error (Route.or_default (data_error data)
                                  ("Upload failed (status "
                                   +:+ pretty (res_status res) +:+ ")"))))
      else if negb (Js.truthy_opt (data_metadataUrl data))
      then (u, Rejected (Error "Upload succeeded but metadataUrl missing from response."))
      else
        (setLinks (data_metadataUrl data)
                  (or_null (data_metadataGatewayUrl data))
                  (or_null (data_imageGatewayUrl data)) u,
         Resolved (Route.template (data_metadataUrl data)))
  end.

(** Removes the [i]-th pending task. *)
Definition finish (i : nat) (l : list Task) : list Task := take i l ++ drop (S i) l.

(** [finally { setBusy(false) }] followed by the [.catch] of the button. *)
Definition fail (i : nat) (e : Exn) (u : State) (s : System) : System :=
  {| ui := on_catch e (setBusy false u);
     pending := finish i (pending s);
     outgoing := outgoing s |}.

(** The [fetch] of the [i]-th pending run settles. *)
Definition fetch_settled (i : nat) (r : Settled HttpResponse) (s : System) : System :=
  match pending s !! i with
  | Some (AwaitUpload captured_name) =>
      match r with
      | Rejected e => fail i e (ui s) s
      | Resolved res =>
          match uploadToStorage_resume res (ui s) with
          | (u, Rejected e) => fail i e u s
          | (u, Resolved uri) =>
              {| ui := setStatus "Minting NFT on Solana Devnet..." u;
                 pending := <[i := AwaitCreate]> (pending s);
                 outgoing := outgoing s ++ [NftsCreate uri captured_name 0] |}
          end
      end
  | _ => s
  end.

(** The [create] of the [i]-th pending run settles. *)
Definition create_settled (i : nat) (r : Settled string) (s : System) : System :=
  match pending s !! i with
  | Some AwaitCreate =>
      match r with
      | Rejected e => fail i e (ui s) s
      | Resolved address =>
          {| ui := setBusy false
                     (setStatus "✅ NFT Minted!" (setMintAddress (Some address) (ui s)));
             pending := finish i (pending s);
             outgoing := outgoing s |}
      end
  | _ => s
  end.

Definition with_ui (f : State -> State) (s : System) : System :=
  {| ui := f (ui s); pending := pending s; outgoing := outgoing s |}.

(** One event of the page.  JavaScript runs one handler or continuation at a
    time, up to its next [await]; the state updates it makes are rendered
    before the next click is dispatched, so the [disabled] attribute a click
    meets is the one computed from the state the previous event left. *)
Definition step (s : System) (ev : Event) : System :=
  match ev with
  | ChangeName v => with_ui (setName v) s
  | ChangeDescription v => with_ui (setDescription v) s
  | ChangeFile f => with_ui (setFile f) s
  | WalletChanged c k => with_ui (setWallet c k) s
  | ClickMint => click s
  | FetchSettled i r => fetch_settled i r s
  | CreateSettled i r => create_settled i r s
  end.

Definition run (evs : list Event) : System := fold_left step evs initial.

(** The runs of [mintNft] that are in flight. *)
Definition in_flight (s : System) : nat := length (pending s).

(** At most one run of [mintNft] is suspended, and one is only while [busy]
    is set. *)
Definition single_flight (s : System) : Prop :=
  (in_flight s <= 1)%nat /\ (pending s <> [] -> busy (ui s) = true).

End Page.


(** ** Sample worlds and requests *)

Module Samples.
Import Route.

Definition no_answer : Output := {| Metadata := None; metadata' := None |}.

(** The answer of an IPFS bucket to a HEAD: the identifier is in the object
    metadata. *)
Definition head_answer (cid : string) : Output :=
  {| Metadata := Some {[ "cid" := cid ]}; metadata' := Some {| httpHeaders := None |} |}.

(** An answer with the identifier in the transport headers. *)
Definition header_answer (cid : string) : Output :=
  {| Metadata := None;
     metadata' := Some {| httpHeaders := Some {[ "x-amz-meta-cid" := cid ]} |} |}.

Definition filebase_env : gmap string string :=
  list_to_map [("FILEBASE_ACCESS_KEY", "AK"); ("FILEBASE_SECRET_KEY", "SK");
               ("FILEBASE_BUCKET", "nft"); ("FILEBASE_S3_ENDPOINT", "https://s3.filebase.com");
               ("FILEBASE_GATEWAY", "https://ipfs.filebase.io/ipfs")].

Definition key_of (cmd : Command) : string :=
  match cmd with
  | PutObjectCommand _ k _ _ => k
  | HeadObjectCommand _ k => k
  end.

Definition cid_for (key : string) : string :=
  if Js.startsWith key "images/" then "QmImage" else "QmMeta".

(** A configured process in front of an IPFS bucket: a put answers without
    identifier, a HEAD gives it. *)
Definition filebase : World :=
  {| process_env := filebase_env;
     Date_now := fun n => 1700000000000 + Z.of_nat n;
     Math_random_toString16 := fun _ => "0.8f3a";
     send := fun _ _ cmd =>
       match cmd with
       | PutObjectCommand _ _ _ _ => Normal no_answer
       | HeadObjectCommand _ k => Normal (head_answer (cid_for k))
       end |}.

(** The same bucket behind a store that puts the identifier in the headers of
    the put response. *)
Definition filebase_headers : World :=
  {| process_env := filebase_env;
     Date_now := Date_now filebase;
     Math_random_toString16 := Math_random_toString16 filebase;
     send := fun _ _ cmd => Normal (header_answer (cid_for (key_of cmd))) |}.

(** A configured process in front of a bucket that is not IPFS-backed. *)
Definition plain_bucket : World :=
  {| process_env := filebase_env;
     Date_now := Date_now filebase;
     Math_random_toString16 := Math_random_toString16 filebase;
     send := fun _ _ _ => Normal no_answer |}.

(** A process started without [.env.local]. *)
Definition unconfigured : World :=
  {| process_env := ∅;
     Date_now := Date_now filebase;
     Math_random_toString16 := Math_random_toString16 filebase;
     send := send filebase |}.

Definition cat_png : File :=
  {| file_name := "my cat.png"; file_type := "image/png";
     file_bytes := [Byte.x89; Byte.x50; Byte.x4e; Byte.x47] |}.

Definition notes_txt : File :=
  {| file_name := "notes.txt"; file_type := "text/plain"; file_bytes := [] |}.

Definition upload (f : File) (name description : string) : Request :=
  {| formData := Normal [("file", EntryFile f); ("name", EntryString name);
                         ("description", EntryString description)] |}.

Definition upload_png : Request := upload cat_png "Gun Skin #1" "test".

Definition upload_unnamed : Request := upload cat_png "" "".

Definition upload_txt : Request := upload notes_txt "Notes" "".

(** A form whose [file] is a text field. *)
Definition file_as_text : Request :=
  {| formData := Normal [("file", EntryString "my cat.png")] |}.

(** A body that is not form data. *)
Definition not_a_form : Request :=
  {| formData := Throw (Error "Failed to parse body as FormData.") |}.

(** A configured process whose store refuses every command. *)
Definition store_down : World :=
  {| process_env := filebase_env;
     Date_now := Date_now filebase;
     Math_random_toString16 := Math_random_toString16 filebase;
     send := fun _ _ _ => Throw (Error "connect ECONNREFUSED") |}.

(** What the route answers to [upload_png] in front of [filebase]. *)
Definition png_uploaded : Response :=
  json_response 200 (upload_result "https://ipfs.filebase.io/ipfs" "QmImage" "QmMeta").

Definition png_run : Trace * Completion Response :=
  POST filebase upload_png start.

Definition unnamed_run : Trace * Completion Response :=
  POST filebase upload_unnamed start.

(** The metadata document the route writes for [upload_unnamed]. *)
Definition unnamed_document : JSON :=
  metadata_document (EntryString "My NFT") (EntryString "") "ipfs://QmImage" "image/png".

(** What it answers in front of [plain_bucket]. *)
Definition cid_missing : Response :=
  json_response 500 (JObject [("error", JString error_cid_missing);
                              ("hint", JString hint_cid_missing)]).

Definition no_file : Request :=
  {| formData := Normal [("name", EntryString "Gun Skin #1")] |}.

End Samples.

Module PageSamples.
Import Page.

Definition phantom : PublicKey := {| toBase58 := "7xKXtg2CW87d97TXJSDpbD5jBkheTqA83TZRuJosgAsU" |}.

Definition picture : File := {| file_name := "cat.png"; file_size := 10240 |}.

(** Connect the wallet, choose a picture, click the button. *)
Definition first_click : list Event :=
  [WalletChanged true (Some phantom); ChangeFile (Some picture); ClickMint].

(** The upload answers, the mint is confirmed. *)
Definition uploaded : HttpResponse :=
  {| res_ok := true; res_status := 200; res_text := "{...}";
     res_parse := Some {| data_error := None;
                          data_metadataUrl := Some "ipfs://QmMeta";
                          data_metadataGatewayUrl := Some "https://ipfs.filebase.io/ipfs/QmMeta";
                          data_imageGatewayUrl := Some "https://ipfs.filebase.io/ipfs/QmImage" |} |}.

Definition whole_workflow : list Event :=
  first_click ++ [ClickMint; FetchSettled 0 (Resolved uploaded); ClickMint;
                  CreateSettled 0 (Resolved "9xQeWvG816bUx9EPjHmaT23yvVM2ZWbrrpZb9PusVFin")].

End PageSamples.

(** ** Vocabulary for the helpers, the runs and the page *)

Module Observations.
Import Route.

(** Every byte of [s] satisfies [p]. *)
Fixpoint all_bytes (p : ascii -> bool) (s : string) : bool :=
  match s with
  | EmptyString => true
  | String c r => p c && all_bytes p r
  end.

Definition first_byte (s : string) : option ascii :=
  match s with
  | EmptyString => None
  | String c _ => Some c
  end.

Definition last_byte (s : string) : option ascii := first_byte (Js.rev s).

(** An ASCII character that is not white space. *)
Definition visible (c : ascii) : bool :=
  Nat.ltb (nat_of_ascii c) 128 && negb (Js.is_ws1 c).

(** A visible ASCII character other than the double quote. *)
Definition plain (c : ascii) : bool := visible c && negb (Js.byte_is c 34).

(** A byte other than the six ASCII white-space characters. *)
Definition not_blank (c : ascii) : bool := negb (Js.is_ws1 c).

(** [n] double quotes. *)
Fixpoint quotes (n : nat) : string :=
  match n with
  | O => ""
  | S n' => String Js.quote_char (quotes n')
  end.

Definition command_bucket (cmd : Command) : string :=
  match cmd with
  | PutObjectCommand b _ _ _ => b
  | HeadObjectCommand b _ => b
  end.

Definition command_key (cmd : Command) : string :=
  match cmd with
  | PutObjectCommand _ k _ _ => k
  | HeadObjectCommand _ k => k
  end.

(** The call goes through the client and to the bucket of the configuration. *)
Definition through_config (W : World) (c : Call) : Prop :=
  c.1 = s3_client W /\ command_bucket c.2 = configured W "FILEBASE_BUCKET".

(** A write is the file of the request in the images namespace, or a JSON
    object in the metadata namespace. *)
Definition write_kind (req : Request) (c : Call) : Prop :=
  match c.2 with
  | PutObjectCommand _ key bytes ct =>
      (Js.startsWith key "images/" = true
       /\ Js.startsWith ct "image/" = true
       /\ exists f, file_payload req = Some f /\ bytes = file_bytes f /\ ct = file_type f)
      \/ (Js.startsWith key "metadata/" = true /\ ct = "application/json")
  | HeadObjectCommand _ _ => True
  end.

(** The four places [getCidByHead] looks at, in its order. *)
Definition candidates (out : Output) : list (option string) :=
  [object_metadata out "cid"; object_metadata out "CID";
   http_header out "x-amz-meta-cid"; http_header out "X-Amz-Meta-Cid"].

End Observations.

Module PageObservations.
Import Page.

(** A log of outgoing calls in which every mint request directly follows an
    upload request made under the same name, asks for no royalty and carries
    a non-empty URI. *)
Fixpoint paired (log : list Outgoing) : bool :=
  match log with
  | [] => true
  | FetchUpload _ n _ :: rest =>
      match rest with
      | NftsCreate uri n' fee :: rest' =>
          String.eqb n n' && Z.eqb fee 0 && Js.truthy uri && paired rest'
      | _ => paired rest
      end
  | NftsCreate _ _ _ :: _ => false
  end.

(** What holds of the page between two events. *)
Definition coherent (s : System) : Prop :=
  single_flight s
  /\ (pending s = [] -> busy (ui s) = false)
  /\ (pending s <> [] -> mintAddress (ui s) = None)
  /\ paired (outgoing s) = true
  /\ (forall n, pending s = [AwaitUpload n] ->
      status (ui s) = "Uploading image + metadata to Filebase (IPFS)..."
      /\ exists l f d, outgoing s = l ++ [FetchUpload f n d])
  /\ metadataUrl (ui s) <> Some ""
  /\ metadataGatewayUrl (ui s) <> Some ""
  /\ imageGatewayUrl (ui s) <> Some "".

(** Unfolds the setters and reads the cells of the state they build. *)
Ltac page_simpl :=
  cbn [step with_ui click fail finish ui pending outgoing on_catch
       setName setDescription setFile setWallet setStatus setBusy setMintAddress
       busy mintAddress metadataUrl metadataGatewayUrl imageGatewayUrl name description
       take drop app].

End PageObservations.

Module MoreSamples.
Import Route Observations Samples.

(** A process whose [.env.local] wraps the bucket name in quotes and blanks,
    and gives the gateway as two quotes with nothing between them. *)
Definition quoted : World :=
  {| process_env :=
       list_to_map [("FILEBASE_BUCKET", "  " +:+ quotes 1 +:+ "nft" +:+ quotes 1 +:+ " ");
                    ("FILEBASE_GATEWAY", quotes 2)];
     Date_now := Date_now filebase;
     Math_random_toString16 := Math_random_toString16 filebase;
     send := send filebase |}.

(** A configured process in front of a store that knows the identifier of
    the objects under images/ only. *)
Definition meta_lost : World :=
  {| process_env := filebase_env;
     Date_now := Date_now filebase;
     Math_random_toString16 := Math_random_toString16 filebase;
     send := fun _ _ cmd =>
       match cmd with
       | PutObjectCommand _ _ _ _ => Normal no_answer
       | HeadObjectCommand _ k =>
           if Js.startsWith k "images/" then Normal (head_answer "QmImage")
           else Normal no_answer
       end |}.

Definition lost_run : Trace * Completion Response :=
  POST meta_lost upload_png start.

(** What the route answers in front of [meta_lost]. *)
Definition meta_cid_missing : Response :=
  json_response 500 (JObject [("error", JString error_meta_cid_missing)]).

Definition down_run : Trace * Completion Response :=
  POST store_down upload_png start.

Definition no_file_run : Trace * Completion Response :=
  POST filebase no_file start.

(** The upload route refuses the file. *)
Definition refused : Page.HttpResponse :=
  {| Page.res_ok := false; Page.res_status := 400;
     Page.res_text := "{...}";
     Page.res_parse :=
       Some {| Page.data_error := Some "Only image files are allowed";
               Page.data_metadataUrl := None;
               Page.data_metadataGatewayUrl := None;
               Page.data_imageGatewayUrl := None |} |}.

End MoreSamples.

(** ** Tactics for runs of the handler *)

Module RunTactics.
Import Route.

(** Runs the handler symbolically: every test of the handler and every answer
    of the world is rewritten with a hypothesis that settles it, or split into
    its cases. *)
Ltac exec_step :=
  match goal with
  | H : ?b = _ |- context [negb ?b] => rewrite H
  | H : formData ?r = _ |- context [match formData ?r with _ => _ end] => rewrite H
  | H : form_get ?f ?k = _ |- context [match form_get ?f ?k with _ => _ end] =>
      rewrite H
  | H : send ?W ?h ?c ?d = _ |- context [match send ?W ?h ?c ?d with _ => _ end] =>
      rewrite H
  | |- context [negb ?b] => destruct b eqn:?
  | |- context [match formData ?r with _ => _ end] => destruct (formData r) eqn:?
  | |- context [match form_get ?f ?k with _ => _ end] =>
      destruct (form_get f k) as [[?|?]|] eqn:?
  | |- context [match send ?W ?h ?c ?d with _ => _ end] =>
      destruct (send W h c d) eqn:?
  end.

Ltac exec_simpl :=
  cbv beta iota zeta delta
    [POST try_catch POST_try bind ret throw await mustEnv randomKey getCidByHead
     s3_send Date_now' Math_random_toString16' console_error' present
     sent clock_reads random_reads console_error start] in *.

Ltac exec :=
  exec_simpl;
  repeat (exec_step;
          change (negb true) with false; change (negb false) with true;
          exec_simpl; try discriminate).

(** Names the client, the bucket and the two keys of a run, and
    forgets how they were computed. *)
Ltac name_config W :=
  let s3 := fresh "s3" in
  let bucket := fresh "bucket" in
  let imgKey := fresh "imgKey" in
  let metaKey := fresh "metaKey" in
  try (set (s3 := {| endpoint := _ |}) in *; clearbody s3);
  try (set (bucket := Js.strip_quotes
                        (Js.trim (template (process_env W !! "FILEBASE_BUCKET")))) in *;
       clearbody bucket);
  try (set (imgKey := "images" +:+ _) in *; clearbody imgKey);
  try (set (metaKey := "metadata" +:+ _) in *; clearbody metaKey);
  repeat match goal with
         | H : Js.truthy_opt (process_env _ !! _) = _ |- _ => clear H
         end.

(** Reads the commands of a concrete trace and their answers. *)
Ltac read_trace :=
  cbv beta iota zeta delta
    [answer cid_of_put cid_of_head sent app lookup list_lookup take] in *.

Ltac use_answers :=
  repeat match goal with
         | H : send ?W ?h ?s ?c = _, H' : context [send ?W ?h ?s ?c] |- _ =>
             rewrite H in H'
         end.


End RunTactics.

(** * Properties of the upload route *)

Module Upload.
Import Route.
Import RunTactics.

Lemma all_present_inv W :
  all_present W = true ->
  present W "FILEBASE_ACCESS_KEY" = true /\ present W "FILEBASE_SECRET_KEY" = true
  /\ present W "FILEBASE_BUCKET" = true /\ present W "FILEBASE_S3_ENDPOINT" = true
  /\ present W "FILEBASE_GATEWAY" = true.
Proof.
  unfold all_present, required_keys. cbn [forallb].
  rewrite !andb_true_iff. tauto.
Qed.

Lemma has_error_field_json st msg rest :
  has_error_field (json_response st (JObject (("error", JString msg) :: rest))).
Proof. exists msg, rest. reflexivity. Qed.

(** C8. [POST] always resolves to a response, whatever the world and the
    request do: the response is JSON, its status is 200, 400 or 500, every
    response other than the 200 one carries an [error] member, and whenever
    the body of the [try] block throws (an environment lookup, the form
    parsing, a store call, the read of [file.type] on a text field), the
    handler answers 500 with that exception's message, or "Upload failed"
    when it has none. *)
Theorem POST_never_throws (W : World) (req : Request) (t : Trace) :
  exists t' resp,
    POST W req t = (t', Normal resp)
    /\ headers resp = [("Content-Type", "application/json")]
    /\ (status resp = 200
        \/ (status resp = 400 \/ status resp = 500) /\ has_error_field resp)
    /\ match POST_try W req t with
       | (t1, Throw e) =>
           t' = logged e t1
           /\ resp = json_response 500
                       (JObject [("error", JString (or_default (message e) "Upload failed"))])
       | (t1, Normal r) => t' = t1 /\ resp = r
       end.
Proof.
  exec.
  all: eexists _, _; split; [reflexivity|]; split; [reflexivity|]; split;
    [ first [ left; reflexivity
            | right; split; [first [left; reflexivity | right; reflexivity]
                            | apply has_error_field_json] ]
    | split; reflexivity ].
Qed.

(** C7 (as stated, it fails).  Started without any configuration, the
    process loads the route without failing; the absent value is found by the
    first request, which is answered 500. *)
Lemma load_unconfigured_counterexample :
  present Samples.unconfigured "FILEBASE_ACCESS_KEY" = false
  /\ load_module Samples.unconfigured
     = Normal {| runtime := "nodejs"; export_POST := POST Samples.unconfigured |}
  /\ POST Samples.unconfigured Samples.upload_png start
     = (logged (Error "Missing FILEBASE_ACCESS_KEY in .env.local") start,
        Normal (json_response 500
                  (JObject [("error", JString "Missing FILEBASE_ACCESS_KEY in .env.local")]))).
Proof. repeat split. Qed.

(** C7 (amended).  Loading the route never fails and reads no configuration.
    When a required value is absent or empty, every request is answered 500
    with the error "Missing <key> in .env.local" that names the first such key
    in the order of [required_keys]; the form is not read and the store is
    not called. *)
Theorem missing_key_fails_each_request (W : World) (req : Request) (t : Trace)
    (before after : list string) (key : string) :
  required_keys = before ++ key :: after ->
  forallb (present W) before = true ->
  present W key = false ->
  (exists m, load_module W = Normal m)
  /\ POST W req t
     = (logged (Error ("Missing " +:+ key +:+ " in .env.local")) t,
        Normal (json_response 500
                  (JObject [("error", JString ("Missing " +:+ key +:+ " in .env.local"))]))).
Proof.
  intros Hkeys Hbefore Hkey. split; [eexists; reflexivity|].
  unfold required_keys in Hkeys.
  destruct before as [|k1 [|k2 [|k3 [|k4 [|k5 before]]]]]; simplify_eq/=.
  all: try (by destruct before).
  all: repeat (apply andb_true_iff in Hbefore as [? Hbefore]).
  all: exec; reflexivity.
Qed.

Lemma missing_key_fails_each_request_witness :
  POST Samples.unconfigured Samples.no_file start
  = (logged (Error "Missing FILEBASE_ACCESS_KEY in .env.local") start,
     Normal (json_response 500
               (JObject [("error", JString "Missing FILEBASE_ACCESS_KEY in .env.local")]))).
Proof.
  exact (proj2 (missing_key_fails_each_request Samples.unconfigured Samples.no_file start
                  [] (tail required_keys) "FILEBASE_ACCESS_KEY"
                  eq_refl eq_refl eq_refl)).
Defined.

(** C4 (as stated, it fails).  A request without file that reaches a process
    started without configuration is answered 500, not 400: the configuration
    is looked up before the form is read. *)
Lemma no_file_unconfigured_counterexample :
  file_payload Samples.no_file = None
  /\ exists t resp,
       POST Samples.unconfigured Samples.no_file start = (t, Normal resp)
       /\ status resp = 500 /\ status resp <> 400.
Proof. split; [reflexivity|]. eexists _, _. repeat split. discriminate. Qed.

(** C4 (amended).  A request that carries no binary payload under [file] never
    reaches the store and is answered with an [error] member and status 400
    or 500.  The status is 400, with the error "File missing", when the five
    configuration values are present, the form data parses and its [file]
    field is absent or the empty string. *)
Theorem file_missing_rejected (W : World) (req : Request) (t : Trace) :
  file_payload req = None ->
  (exists t' resp,
      POST W req t = (t', Normal resp)
      /\ sent t' = sent t
      /\ has_error_field resp
      /\ (status resp = 400 \/ status resp = 500))
  /\ (forall form,
        all_present W = true ->
        formData req = Normal form ->
        entry_truthy (form_get form "file") = false ->
        POST W req t
        = (t, Normal (json_response 400 (JObject [("error", JString "File missing")])))).
Proof.
  intros Hfile. unfold file_payload in Hfile. split.
  - exec; simplify_eq.
    all: eexists _, _; split; [reflexivity|]; split; [reflexivity|]; split;
      [apply has_error_field_json | (left; reflexivity) || (right; reflexivity)].
  - intros form (?&?&?&?&?)%all_present_inv Hform Hnone. exec. reflexivity.
Qed.

Lemma file_missing_rejected_witness :
  POST Samples.filebase Samples.no_file start
  = (start, Normal (json_response 400 (JObject [("error", JString "File missing")]))).
Proof.
  exact (proj2 (file_missing_rejected Samples.filebase Samples.no_file start eq_refl)
           _ eq_refl eq_refl eq_refl).
Defined.

(** C5 (as stated, it fails).  A text file sent to a process started without
    configuration is answered 500, not 400. *)
Lemma not_image_unconfigured_counterexample :
  file_payload Samples.upload_txt = Some Samples.notes_txt
  /\ Js.startsWith (file_type Samples.notes_txt) "image/" = false
  /\ exists t resp,
       POST Samples.unconfigured Samples.upload_txt start = (t, Normal resp)
       /\ status resp = 500 /\ status resp <> 400.
Proof.
  split; [reflexivity|]. split; [reflexivity|]. eexists _, _. repeat split. discriminate.
Qed.

(** C5 (amended).  A request whose file has a MIME type that does not start
    with "image/" never reaches the store and is answered with an [error]
    member and status 400 or 500.  The status is 400, with the error "Only
    image files are allowed", when the five configuration values are present;
    the test comes after the test of the file's presence, which such a request
    passes. *)
Theorem not_image_rejected (W : World) (req : Request) (t : Trace) (f : File) :
  file_payload req = Some f ->
  Js.startsWith (file_type f) "image/" = false ->
  (exists t' resp,
      POST W req t = (t', Normal resp)
      /\ sent t' = sent t
      /\ has_error_field resp
      /\ (status resp = 400 \/ status resp = 500))
  /\ (all_present W = true ->
      (exists form, formData req = Normal form
                    /\ entry_truthy (form_get form "file") = true)
      /\ POST W req t
         = (t, Normal (json_response 400
                         (JObject [("error", JString "Only image files are allowed")])))).
Proof.
  intros Hfile Htype. unfold file_payload in Hfile.
  destruct (formData req) as [form|] eqn:Hform; [|discriminate].
  destruct (form_get form "file") as [[|f']|] eqn:Hget; simplify_eq.
  split.
  - exec.
    all: eexists _, _; split; [reflexivity|]; split; [reflexivity|]; split;
      [apply has_error_field_json | (left; reflexivity) || (right; reflexivity)].
  - intros (?&?&?&?&?)%all_present_inv. split.
    + exists form. rewrite Hget. done.
    + exec. reflexivity.
Qed.

Lemma not_image_rejected_witness :
  POST Samples.filebase Samples.upload_txt start
  = (start, Normal (json_response 400
                      (JObject [("error", JString "Only image files are allowed")]))).
Proof.
  exact (proj2 (proj2 (not_image_rejected Samples.filebase Samples.upload_txt start
                         Samples.notes_txt eq_refl eq_refl) eq_refl)).
Defined.

Lemma truthy_opt_template (v : option string) :
  Js.truthy_opt v = true -> v = Some (template v) /\ template v <> "".
Proof.
  destruct v as [[|c s]|]; intros H; cbn in H; try discriminate H.
  split; [reflexivity|]. cbn. intros E. discriminate E.
Qed.

(** C6. On every 200 response the body is the object
    [{metadataUrl, metadataGatewayUrl, imageIpfs, imageGatewayUrl}] where
    [metadataUrl] and [imageIpfs] are "ipfs://" followed by a non-empty
    identifier, and the two gateway URLs are the configured gateway prefix
    (the value [mustEnv] returns for FILEBASE_GATEWAY), a slash, and the
    corresponding identifier. *)
Theorem success_urls_well_formed (W : World) (req : Request) (t t' : Trace)
    (resp : Response) :
  POST W req t = (t', Normal resp) ->
  status resp = 200 ->
  exists imgCid metaCid,
    imgCid <> "" /\ metaCid <> ""
    /\ resp = json_response 200
                (upload_result (configured W "FILEBASE_GATEWAY") imgCid metaCid).
Proof.
  intros Hrun Hstatus. revert Hrun. exec.
  all: intros [= <- <-]; try discriminate.
  all: refine (ex_intro _ _ (ex_intro _ _ (conj _ (conj _ eq_refl)))).
  all: apply truthy_opt_template; assumption.
Qed.

Lemma success_urls_well_formed_witness :
  exists imgCid metaCid,
    imgCid <> "" /\ metaCid <> ""
    /\ Samples.png_uploaded
       = json_response 200
           (upload_result (configured Samples.filebase "FILEBASE_GATEWAY") imgCid metaCid).
Proof.
  apply (success_urls_well_formed Samples.filebase Samples.upload_png start
           (POST Samples.filebase Samples.upload_png start).1 Samples.png_uploaded).
  - vm_compute. reflexivity.
  - reflexivity.
Defined.

(** C2. When the first command of a run, the image write, is answered
    without identifier in its transport headers, and the command after it,
    the HEAD query, is answered without identifier either, the response is
    500 with an error that mentions the missing CID, and the run has sent
    these two commands only: there is no second write. *)
Theorem cid_missing_stops_upload (W : World) (req : Request) (t : Trace)
    (resp : Response) (putOut headOut : Output) :
  POST W req start = (t, Normal resp) ->
  answer W t 0 = Some putOut ->
  Js.truthy_opt (cid_of_put putOut) = false ->
  answer W t 1 = Some headOut ->
  Js.truthy_opt (cid_of_head headOut) = false ->
  status resp = 500
  /\ error_mentions resp "CID missing"
  /\ exists s3 bucket key bytes ct,
       sent t = [(s3, PutObjectCommand bucket key bytes ct);
                 (s3, HeadObjectCommand bucket key)].
Proof.
  intros Hrun Hput Hnoput Hhead Hnohead. revert Hrun. exec.
  all: intros [= <- <-].
  all: name_config W; read_trace; try discriminate.
  all: use_answers; simplify_eq; try congruence.
  all: split; [reflexivity|]; split;
    [ eexists _, _; split; [reflexivity | vm_compute; reflexivity]
    | eexists _, _, _, _, _; reflexivity ].
Qed.

Lemma cid_missing_stops_upload_witness :
  status Samples.cid_missing = 500
  /\ error_mentions Samples.cid_missing "CID missing"
  /\ exists s3 bucket key bytes ct,
       sent (POST Samples.plain_bucket Samples.upload_png start).1
       = [(s3, PutObjectCommand bucket key bytes ct);
          (s3, HeadObjectCommand bucket key)].
Proof.
  apply (cid_missing_stops_upload Samples.plain_bucket Samples.upload_png _
           Samples.cid_missing Samples.no_answer Samples.no_answer).
  all: vm_compute; reflexivity.
Defined.

(** Beside C2: when the HEAD query itself throws, the run stops after it just
    the same, and the response is 500 with the message of the exception. *)
Lemma head_failure_stops_upload (W : World) (req : Request) (t : Trace)
    (resp : Response) (putOut : Output) (s3 : S3Client) (cmd : Command) (e : Exn) :
  POST W req start = (t, Normal resp) ->
  answer W t 0 = Some putOut ->
  Js.truthy_opt (cid_of_put putOut) = false ->
  sent t !! 1%nat = Some (s3, cmd) ->
  send W (take 1 (sent t)) s3 cmd = Throw e ->
  resp = json_response 500
           (JObject [("error", JString (or_default (message e) "Upload failed"))])
  /\ length (sent t) = 2%nat.
Proof.
  intros Hrun Hput Hnoput Hlook Hthrow. revert Hrun. exec.
  all: intros [= <- <-].
  all: name_config W; read_trace; try discriminate.
  all: use_answers; simplify_eq; try congruence.
  all: match goal with
       | H1 : ?x = Throw _, H2 : ?x = Throw _ |- _ => rewrite H1 in H2; injection H2 as <-
       end.
  all: split; reflexivity.
Qed.

(** C1. On every 200 response the run has made exactly two writes: the image
    bytes under the declared MIME type, then, as "application/json", the
    two-space-indented serialization of the document
    [{name, description, image, properties: {files: [{uri, type}], category: "image"}}]
    in which [image] and [files[0].uri] are the very string returned as
    [imageIpfs], "ipfs://" followed by the image identifier, and
    [files[0].type] is the MIME type of the request's file. *)
Theorem metadata_document_written (W : World) (req : Request) (t : Trace)
    (resp : Response) :
  POST W req start = (t, Normal resp) ->
  status resp = 200 ->
  exists form f imgCid metaCid s3 bucket imgKey metaKey,
    formData req = Normal form
    /\ form_get form "file" = Some (EntryFile f)
    /\ let name := entry_or (form_get form "name") "My NFT" in
       let description := entry_or (form_get form "description") "" in
       let gateway := configured W "FILEBASE_GATEWAY" in
       let imageIpfs := "ipfs://" +:+ imgCid in
       let doc :=
         JObject [
           ("name", json_of_entry name);
           ("description", json_of_entry description);
           ("image", JString imageIpfs);
           ("properties",
             JObject [
               ("files", JArray [JObject [("uri", JString imageIpfs);
                                          ("type", JString (file_type f))]]);
               ("category", JString "image")
             ])
         ] in
       body resp
       = Json.stringify
           (JObject [("metadataUrl", JString ("ipfs://" +:+ metaCid));
                     ("metadataGatewayUrl", JString (gateway +:+ "/" +:+ metaCid));
                     ("imageIpfs", JString imageIpfs);
                     ("imageGatewayUrl", JString (gateway +:+ "/" +:+ imgCid))])
       /\ puts t
          = [(s3, PutObjectCommand bucket imgKey (file_bytes f) (file_type f));
             (s3, PutObjectCommand bucket metaKey
                    (Buffer_from (Json.stringify2 doc)) "application/json")].
Proof.
  intros Hrun Hstatus. revert Hrun. exec.
  all: intros [= <- <-]; try discriminate.
  all: eexists _, _, _, _, _, _, _, _.
  all: split; [reflexivity|]; split; [eassumption|].
  all: split; reflexivity.
Qed.

Lemma metadata_document_written_witness :
  exists form f imgCid metaCid s3 bucket imgKey metaKey,
    formData Samples.upload_png = Normal form
    /\ form_get form "file" = Some (EntryFile f)
    /\ let name := entry_or (form_get form "name") "My NFT" in
       let description := entry_or (form_get form "description") "" in
       let gateway := configured Samples.filebase "FILEBASE_GATEWAY" in
       let imageIpfs := "ipfs://" +:+ imgCid in
       let doc :=
         JObject [
           ("name", json_of_entry name);
           ("description", json_of_entry description);
           ("image", JString imageIpfs);
           ("properties",
             JObject [
               ("files", JArray [JObject [("uri", JString imageIpfs);
                                          ("type", JString (file_type f))]]);
               ("category", JString "image")
             ])
         ] in
       body Samples.png_uploaded
       = Json.stringify
           (JObject [("metadataUrl", JString ("ipfs://" +:+ metaCid));
                     ("metadataGatewayUrl", JString (gateway +:+ "/" +:+ metaCid));
                     ("imageIpfs", JString imageIpfs);
                     ("imageGatewayUrl", JString (gateway +:+ "/" +:+ imgCid))])
       /\ puts Samples.png_run.1
          = [(s3, PutObjectCommand bucket imgKey (file_bytes f) (file_type f));
             (s3, PutObjectCommand bucket metaKey
                    (Buffer_from (Json.stringify2 doc)) "application/json")].
Proof.
  apply (metadata_document_written Samples.filebase Samples.upload_png).
  - vm_compute. reflexivity.
  - reflexivity.
Defined.

Lemma images_key_not_metadata (k : string) :
  Js.startsWith ("images" +:+ k) "metadata/" = false.
Proof. reflexivity. Qed.

Lemma entry_or_not_empty (v : option FormDataEntryValue) (d : string) :
  d <> "" -> json_of_entry (entry_or v d) <> JString "".
Proof.
  intros Hd. destruct v as [[[|c s]|f]|]; cbn; try discriminate.
  all: intros [= E]; auto.
Qed.

(** C10. Every object a run writes under the "metadata/" prefix is the
    serialization of a metadata document whose name is [name || "My NFT"] and
    whose description is [description || ""] for the fields of the request:
    an absent or empty name becomes "My NFT", an absent or empty description
    becomes the empty string, and the name of the document is never the
    empty string. *)
Theorem metadata_name_never_empty (W : World) (req : Request) (t : Trace)
    (r : Completion Response) (i : nat) (s3 : S3Client) (bucket key : string)
    (bytes : list Byte.byte) (ct : string) :
  POST W req start = (t, r) ->
  sent t !! i = Some (s3, PutObjectCommand bucket key bytes ct) ->
  Js.startsWith key "metadata/" = true ->
  exists form imageIpfs type,
    formData req = Normal form
    /\ let name := entry_or (form_get form "name") "My NFT" in
       let description := entry_or (form_get form "description") "" in
       bytes = Buffer_from
                 (Json.stringify2 (metadata_document name description imageIpfs type))
       /\ json_of_entry name <> JString ""
       /\ (entry_truthy (form_get form "name") = false -> name = EntryString "My NFT")
       /\ (entry_truthy (form_get form "description") = false ->
           description = EntryString "").
Proof.
  intros Hrun Hlook Hkey. revert Hrun. exec.
  all: intros [= <- <-].
  all: cbv beta iota zeta delta [sent app] in Hlook.
  all: destruct i as [|[|[|[|i]]]]; try discriminate Hlook.
  all: injection Hlook as <- <- <- <- <-.
  all: try (rewrite images_key_not_metadata in Hkey; discriminate Hkey).
  all: eexists _, _, _; split; [reflexivity|]; split; [reflexivity|].
  all: split; [apply entry_or_not_empty; discriminate|].
  all: split; intros Hfalsy.
  all: match type of Hfalsy with
       | entry_truthy ?v = false =>
           destruct v as [[[|? ?]|?]|]; try discriminate Hfalsy
       end; reflexivity.
Qed.

Lemma metadata_name_never_empty_witness :
  exists form imageIpfs type,
    formData Samples.upload_unnamed = Normal form
    /\ let name := entry_or (form_get form "name") "My NFT" in
       let description := entry_or (form_get form "description") "" in
       Buffer_from (Json.stringify2 Samples.unnamed_document)
       = Buffer_from
           (Json.stringify2 (metadata_document name description imageIpfs type))
       /\ json_of_entry name <> JString ""
       /\ (entry_truthy (form_get form "name") = false -> name = EntryString "My NFT")
       /\ (entry_truthy (form_get form "description") = false ->
           description = EntryString "").
Proof.
  apply (metadata_name_never_empty Samples.filebase Samples.upload_unnamed
           Samples.unnamed_run.1 Samples.unnamed_run.2 2
           (s3_client Samples.filebase) "nft"
           "metadata/1700000000001-8f3a-metadata.json" _ "application/json").
  all: vm_compute; reflexivity.
Defined.






(** The four sources of exceptions named by C8, on concrete inputs. *)
Example environment_lookup_throws :
  (POST Samples.unconfigured Samples.upload_png start).2
  = Normal (json_response 500
              (JObject [("error", JString "Missing FILEBASE_ACCESS_KEY in .env.local")])).
Proof. reflexivity. Qed.

Example form_parsing_throws :
  (POST Samples.filebase Samples.not_a_form start).2
  = Normal (json_response 500
              (JObject [("error", JString "Failed to parse body as FormData.")])).
Proof. vm_compute. reflexivity. Qed.

Example store_call_throws :
  POST Samples.store_down Samples.upload_png start
  = ({| sent := [(s3_client Samples.store_down,
                  PutObjectCommand "nft" "images/1700000000000-8f3a-my_cat.png"
                    (file_bytes Samples.cat_png) "image/png")];
        clock_reads := 1; random_reads := 1;
        console_error := [Error "connect ECONNREFUSED"] |},
     Normal (json_response 500 (JObject [("error", JString "connect ECONNREFUSED")]))).
Proof. vm_compute. reflexivity. Qed.

Example text_field_throws :
  POST Samples.filebase Samples.file_as_text start
  = (logged (TypeError_undefined "startsWith") start,
     Normal (json_response 500
               (JObject [("error",
                          JString "Cannot read properties of undefined (reading 'startsWith')")]))).
Proof. vm_compute. reflexivity. Qed.

(** The run of [upload_png] in front of an IPFS bucket: put, HEAD, put, HEAD. *)
Example png_run_trace :
  map snd (sent Samples.png_run.1)
  = [PutObjectCommand "nft" "images/1700000000000-8f3a-my_cat.png"
       (file_bytes Samples.cat_png) "image/png";
     HeadObjectCommand "nft" "images/1700000000000-8f3a-my_cat.png";
     PutObjectCommand "nft" "metadata/1700000000001-8f3a-metadata.json"
       (Buffer_from
          (Json.stringify2
             (metadata_document (EntryString "Gun Skin #1") (EntryString "test")
                "ipfs://QmImage" "image/png")))
       "application/json";
     HeadObjectCommand "nft" "metadata/1700000000001-8f3a-metadata.json"]
  /\ Samples.png_run.2 = Normal Samples.png_uploaded.
Proof. vm_compute. split; reflexivity. Qed.

End Upload.


(** * Properties of the mint page *)

Module Workflow.
Import Page.

Lemma click_while_busy (s : System) : busy (ui s) = true -> click s = s.
Proof.
  intros Hbusy. unfold click, disabled. rewrite Hbusy, orb_true_r. reflexivity.
Qed.

Lemma enabled_not_busy (s : System) : disabled (ui s) = false -> busy (ui s) = false.
Proof. unfold disabled. intros [_ H]%orb_false_iff. exact H. Qed.

Lemma single_flight_idle (s : System) :
  single_flight s -> busy (ui s) = false -> pending s = [].
Proof.
  intros [_ Hbusy] Hidle. destruct (pending s) as [|x l] eqn:E; [reflexivity|].
  rewrite Hbusy in Hidle; [discriminate|]. discriminate.
Qed.

Lemma single_flight_click (s : System) : single_flight s -> single_flight (click s).
Proof.
  intros Hs. unfold click. destruct (disabled (ui s)) eqn:Hd; [exact Hs|].
  pose proof (single_flight_idle s Hs (enabled_not_busy s Hd)) as Hnone.
  unfold onClick, single_flight, in_flight.
  repeat case_match; cbn [pending ui]; rewrite Hnone; cbn; split; (lia || done).
Qed.

Lemma resume_keeps_busy (res : HttpResponse) (u : State) :
  busy (uploadToStorage_resume res u).1 = busy u.
Proof. unfold uploadToStorage_resume. repeat case_match; reflexivity. Qed.

Lemma single_flight_fail (s : System) (i : nat) (e : Exn) (u : State) (x : Task) :
  (in_flight s <= 1)%nat -> pending s !! i = Some x -> single_flight (fail i e u s).
Proof.
  unfold single_flight, in_flight, fail, finish. cbn [pending ui].
  destruct (pending s) as [|y [|z l]]; cbn [length]; [| |lia]; intros _ Hi.
  all: destruct i as [|i]; try discriminate Hi.
  cbn [take drop app length]. split; [lia | done].
Qed.

Lemma single_flight_fetch_settled (s : System) (i : nat) (r : Settled HttpResponse) :
  single_flight s -> single_flight (fetch_settled i r s).
Proof.
  intros Hs. unfold fetch_settled.
  destruct (pending s !! i) as [[captured|]|] eqn:Hi; [|exact Hs|exact Hs].
  destruct r as [res|e]; [|eapply single_flight_fail; [apply Hs | exact Hi]].
  pose proof (resume_keeps_busy res (ui s)) as Hkeep.
  destruct (uploadToStorage_resume res (ui s)) as [u [uri|e]];
    [|eapply single_flight_fail; [apply Hs | exact Hi]].
  destruct Hs as [Hlen Hbusy]. unfold single_flight, in_flight in *.
  cbn [pending ui fst] in *. rewrite length_insert. split; [exact Hlen|].
  intros _. change (busy u = true). rewrite Hkeep. apply Hbusy.
  intros E. rewrite E in Hi. discriminate Hi.
Qed.

Lemma single_flight_create_settled (s : System) (i : nat) (r : Settled string) :
  single_flight s -> single_flight (create_settled i r s).
Proof.
  intros Hs. unfold create_settled.
  destruct (pending s !! i) as [[captured|]|] eqn:Hi; [exact Hs| |exact Hs].
  destruct r as [address|e]; [|eapply single_flight_fail; [apply Hs | exact Hi]].
  destruct (single_flight_fail s i (Error "") (ui s) _ (proj1 Hs) Hi) as [Hlen Hnone].
  unfold single_flight, in_flight, fail in *. cbn [pending ui] in *.
  split; [exact Hlen|]. intros Hp. specialize (Hnone Hp). discriminate Hnone.
Qed.

Lemma single_flight_step (s : System) (ev : Event) :
  single_flight s -> single_flight (step s ev).
Proof.
  intros Hs. destruct ev; cbn [step];
    [exact Hs | exact Hs | exact Hs | exact Hs
    | by apply single_flight_click
    | by apply single_flight_fetch_settled
    | by apply single_flight_create_settled ].
Qed.

Lemma single_flight_from (evs : list Event) (s : System) :
  single_flight s -> single_flight (fold_left step evs s).
Proof.
  revert s. induction evs as [|ev evs IH]; intros s Hs; [exact Hs|].
  cbn. apply IH, single_flight_step, Hs.
Qed.

(** C9. After any sequence of events of the page, at most one run of the
    workflow is in flight; while one is in flight the busy flag is set, the
    button is disabled, and a click on the button changes nothing: no state,
    no pending run and no outgoing upload or mint is added. *)
Theorem one_workflow_in_flight (evs : list Event) :
  (in_flight (run evs) <= 1)%nat
  /\ (in_flight (run evs) = 1%nat ->
      busy (ui (run evs)) = true
      /\ disabled (ui (run evs)) = true
      /\ step (run evs) ClickMint = run evs).
Proof.
  assert (Hs : single_flight (run evs)).
  { apply single_flight_from. split; [cbn; lia | done]. }
  split; [apply Hs|]. intros Hone.
  assert (Hbusy : busy (ui (run evs)) = true).
  { apply Hs. unfold in_flight in Hone. intros E. rewrite E in Hone. discriminate. }
  split; [exact Hbusy|]. split.
  - unfold disabled. rewrite Hbusy. apply orb_true_r.
  - apply click_while_busy, Hbusy.
Qed.

(** A first click starts one upload; the second click, issued while it is in
    flight, starts nothing. *)
Example second_click_is_ignored :
  in_flight (run PageSamples.first_click) = 1%nat
  /\ outgoing (run PageSamples.first_click)
     = [FetchUpload PageSamples.picture "My NFT" "Demo NFT on Devnet"]
  /\ run (PageSamples.first_click ++ [ClickMint]) = run PageSamples.first_click.
Proof. repeat split. Qed.

(** The whole workflow with two ignored clicks: one upload, one mint. *)
Example whole_workflow_runs_once :
  outgoing (run PageSamples.whole_workflow)
  = [FetchUpload PageSamples.picture "My NFT" "Demo NFT on Devnet";
     NftsCreate "ipfs://QmMeta" "My NFT" 0]
  /\ in_flight (run PageSamples.whole_workflow) = 0%nat
  /\ busy (ui (run PageSamples.whole_workflow)) = false
  /\ status (ui (run PageSamples.whole_workflow)) = "✅ NFT Minted!".
Proof. repeat split. Qed.

End Workflow.

(** * Properties of the helpers of the route *)

Module Helpers.
Import Route Observations.

(** ** Strings *)

Lemma append_cons (c : ascii) (a b : string) : String c a +:+ b = String c (a +:+ b).
Proof. reflexivity. Qed.

Lemma append_empty_r (s : string) : s +:+ "" = s.
Proof. induction s as [|c s IH]; [reflexivity|]. rewrite append_cons, IH. reflexivity. Qed.

Lemma append_assoc (a b c : string) : (a +:+ b) +:+ c = a +:+ (b +:+ c).
Proof.
  induction a as [|x a IH]; [reflexivity|]. rewrite !append_cons, IH. reflexivity.
Qed.

Lemma rev_onto_app (s acc : string) : Js.rev_onto s acc = Js.rev s +:+ acc.
Proof.
  unfold Js.rev. revert acc. induction s as [|c s IH]; intros acc; [reflexivity|].
  cbn [Js.rev_onto]. rewrite IH, (IH (String c "")), append_assoc. reflexivity.
Qed.

Lemma rev_cons (c : ascii) (s : string) : Js.rev (String c s) = Js.rev s +:+ String c "".
Proof. unfold Js.rev at 1. cbn [Js.rev_onto]. apply rev_onto_app. Qed.

Lemma rev_app (a b : string) : Js.rev (a +:+ b) = Js.rev b +:+ Js.rev a.
Proof.
  induction a as [|c a IH].
  - symmetry. apply append_empty_r.
  - rewrite append_cons, !rev_cons, IH, append_assoc. reflexivity.
Qed.

Lemma rev_involutive (s : string) : Js.rev (Js.rev s) = s.
Proof.
  induction s as [|c s IH]; [reflexivity|].
  rewrite rev_cons, rev_app, IH. reflexivity.
Qed.

Lemma byte_is_quote (c : ascii) : Js.byte_is c 34 = true -> c = Js.quote_char.
Proof.
  unfold Js.byte_is, Js.quote_char. intros H%Nat.eqb_eq.
  rewrite <- H. symmetry. apply ascii_nat_embedding.
Qed.

(** What [drop_quotes] removes is a run of quotes, and what it leaves does not
    start with one. *)
Lemma drop_quotes_split (s : string) :
  exists n, s = quotes n +:+ Js.drop_quotes s
            /\ first_byte (Js.drop_quotes s) <> Some Js.quote_char.
Proof.
  induction s as [|c s (n & Hs & Hfirst)].
  - exists 0%nat. split; [reflexivity | discriminate].
  - cbn [Js.drop_quotes]. destruct (Js.byte_is c 34) eqn:Hc.
    + exists (S n). apply byte_is_quote in Hc as ->. split; [|exact Hfirst].
      cbn [quotes]. rewrite append_cons. congruence.
    + exists 0%nat. split; [reflexivity|]. cbn. intros [= ->]. discriminate Hc.
Qed.

Lemma first_byte_app (a b : string) :
  a <> "" -> first_byte (a +:+ b) = first_byte a.
Proof. destruct a; [congruence | reflexivity]. Qed.

Lemma rev_empty (s : string) : Js.rev s = "" -> s = "".
Proof. intros H. rewrite <- (rev_involutive s), H. reflexivity. Qed.

Lemma strip_quotes_ends (s : string) :
  first_byte (Js.strip_quotes s) <> Some Js.quote_char
  /\ last_byte (Js.strip_quotes s) <> Some Js.quote_char.
Proof.
  unfold Js.strip_quotes, last_byte. rewrite rev_involutive.
  destruct (drop_quotes_split s) as (n & _ & Hfirst).
  destruct (drop_quotes_split (Js.rev (Js.drop_quotes s))) as (m & Hrev & Hlast).
  split; [|exact Hlast].
  set (y := Js.drop_quotes s) in *. set (z := Js.drop_quotes (Js.rev y)) in *.
  assert (Hy : y = Js.rev z +:+ Js.rev (quotes m)).
  { rewrite <- (rev_involutive y), Hrev, rev_app. reflexivity. }
  destruct (Js.rev z) as [|c r] eqn:Hz; [discriminate|].
  rewrite Hy in Hfirst. exact Hfirst.
Qed.

Lemma visible_not_byte (c : ascii) (n : nat) :
  visible c = true -> (128 <= n)%nat -> Js.byte_is c n = false.
Proof.
  unfold visible, Js.byte_is. intros [Hlt _]%andb_true_iff Hn.
  apply Nat.ltb_lt in Hlt. apply Nat.eqb_neq. lia.
Qed.

Lemma visible_not_ws1 (c : ascii) : visible c = true -> Js.is_ws1 c = false.
Proof. unfold visible. intros [_ H]%andb_true_iff. by apply negb_true_iff. Qed.

Lemma visible_not_ws2_l (c c' : ascii) : visible c = true -> Js.is_ws2 c c' = false.
Proof. intros H. unfold Js.is_ws2. rewrite (visible_not_byte c 194 H); [reflexivity | lia]. Qed.

Lemma visible_not_ws2_r (c c' : ascii) : visible c = true -> Js.is_ws2 c' c = false.
Proof.
  intros H. unfold Js.is_ws2. rewrite (visible_not_byte c 160 H); [|lia].
  apply andb_false_r.
Qed.

Lemma visible_not_ws3_l (c c2 c3 : ascii) : visible c = true -> Js.is_ws3 c c2 c3 = false.
Proof.
  intros H. unfold Js.is_ws3.
  rewrite (visible_not_byte c 225 H), (visible_not_byte c 226 H),
    (visible_not_byte c 227 H), (visible_not_byte c 239 H) by lia.
  reflexivity.
Qed.

Lemma visible_not_ws3_r (c c1 c2 : ascii) : visible c = true -> Js.is_ws3 c1 c2 c = false.
Proof.
  intros H. unfold Js.is_ws3.
  rewrite (visible_not_byte c 128 H), (visible_not_byte c 168 H),
    (visible_not_byte c 169 H), (visible_not_byte c 175 H),
    (visible_not_byte c 159 H), (visible_not_byte c 191 H) by lia.
  assert (Hlt : (nat_of_ascii c < 128)%nat).
  { unfold visible in H. apply andb_true_iff in H as [H _]. by apply Nat.ltb_lt. }
  replace (Nat.leb 128 (nat_of_ascii c)) with false
    by (symmetry; apply Nat.leb_gt; lia).
  rewrite !andb_false_r. reflexivity.
Qed.

Lemma drop_ws_visible (backwards : bool) (c : ascii) (r : string) :
  visible c = true -> Js.drop_ws backwards (String c r) = String c r.
Proof.
  intros H. cbn [Js.drop_ws]. rewrite (visible_not_ws1 c H).
  destruct r as [|c2 [|c3 r]]; [reflexivity| |].
  all: destruct backwards;
    rewrite ?(visible_not_ws2_l c _ H), ?(visible_not_ws2_r c _ H),
      ?(visible_not_ws3_l c _ _ H), ?(visible_not_ws3_r c _ _ H); reflexivity.
Qed.

Lemma trim_visible_ends (s : string) (a z : ascii) :
  first_byte s = Some a -> last_byte s = Some z ->
  visible a = true -> visible z = true -> Js.trim s = s.
Proof.
  unfold last_byte, Js.trim. intros Ha Hz Hva Hvz.
  destruct s as [|a' r]; [discriminate|]. injection Ha as ->.
  rewrite (drop_ws_visible false a r Hva).
  destruct (Js.rev (String a r)) as [|z' r'] eqn:Hrev; [discriminate|].
  injection Hz as ->. rewrite (drop_ws_visible true z r' Hvz), <- Hrev.
  apply rev_involutive.
Qed.

Lemma drop_quotes_not_quote (c : ascii) (r : string) :
  Js.byte_is c 34 = false -> Js.drop_quotes (String c r) = String c r.
Proof. intros H. cbn [Js.drop_quotes]. rewrite H. reflexivity. Qed.

Lemma strip_quotes_plain_ends (s : string) (a z : ascii) :
  first_byte s = Some a -> last_byte s = Some z ->
  Js.byte_is a 34 = false -> Js.byte_is z 34 = false -> Js.strip_quotes s = s.
Proof.
  unfold last_byte, Js.strip_quotes. intros Ha Hz Hqa Hqz.
  destruct s as [|a' r]; [discriminate|]. injection Ha as ->.
  rewrite (drop_quotes_not_quote a r Hqa).
  destruct (Js.rev (String a r)) as [|z' r'] eqn:Hrev; [discriminate|].
  injection Hz as ->. rewrite (drop_quotes_not_quote z r' Hqz), <- Hrev.
  apply rev_involutive.
Qed.

Lemma plain_inv (c : ascii) : plain c = true -> visible c = true /\ Js.byte_is c 34 = false.
Proof. unfold plain. intros [? ?%negb_true_iff]%andb_true_iff. done. Qed.

(** ** [mustEnv] *)

(** X1. When [mustEnv] returns, it has changed nothing, the variable was set
    to a non-empty string, and the value returned neither starts nor ends
    with a double quote. *)
Theorem mustEnv_returns_unquoted (W : World) (key : string) (t t' : Trace) (v : string) :
  mustEnv W key t = (t', Normal v) ->
  t' = t
  /\ (exists raw, process_env W !! key = Some raw /\ raw <> "")
  /\ first_byte v <> Some Js.quote_char
  /\ last_byte v <> Some Js.quote_char.
Proof.
  unfold mustEnv, throw, ret.
  destruct (process_env W !! key) as [[|c raw]|] eqn:Henv; cbn; try discriminate.
  intros [= <- <-]. split; [reflexivity|]. split; [by eexists|].
  apply strip_quotes_ends.
Qed.

Lemma mustEnv_returns_unquoted_witness :
  start = start
  /\ (exists raw, process_env MoreSamples.quoted !! "FILEBASE_BUCKET" = Some raw
                  /\ raw <> "")
  /\ first_byte "nft" <> Some Js.quote_char
  /\ last_byte "nft" <> Some Js.quote_char.
Proof.
  apply (mustEnv_returns_unquoted MoreSamples.quoted "FILEBASE_BUCKET" start start "nft").
  vm_compute. reflexivity.
Defined.

(** X2. A value that starts and ends with an ASCII character that is neither
    white space nor a double quote is returned as it stands in the
    environment. *)
Theorem mustEnv_keeps_plain_value (W : World) (key v : string) (t : Trace) (a z : ascii) :
  process_env W !! key = Some v ->
  first_byte v = Some a -> last_byte v = Some z ->
  plain a = true -> plain z = true ->
  mustEnv W key t = (t, Normal v).
Proof.
  intros Henv Ha Hz [Hva Hqa]%plain_inv [Hvz Hqz]%plain_inv.
  unfold mustEnv, throw, ret. rewrite Henv.
  destruct v as [|c r]; [discriminate|]. cbn [Js.truthy_opt Js.truthy negb template].
  rewrite (trim_visible_ends _ a z Ha Hz Hva Hvz).
  rewrite (strip_quotes_plain_ends _ a z Ha Hz Hqa Hqz). reflexivity.
Qed.

Lemma mustEnv_keeps_plain_value_witness :
  mustEnv Samples.filebase "FILEBASE_BUCKET" start = (start, Normal "nft").
Proof.
  apply (mustEnv_keeps_plain_value Samples.filebase "FILEBASE_BUCKET" "nft" start
           "n"%char "t"%char); reflexivity.
Defined.

Lemma rev_quotes (n : nat) : Js.rev (quotes n) = quotes n.
Proof.
  induction n as [|n IH]; [reflexivity|].
  cbn [quotes]. rewrite rev_cons, IH. clear IH.
  induction n as [|n IH]; [reflexivity|]. cbn [quotes]. rewrite append_cons, IH. reflexivity.
Qed.

Lemma drop_quotes_quotes (n : nat) : Js.drop_quotes (quotes n) = "".
Proof. induction n as [|n IH]; [reflexivity|]. exact IH. Qed.

(** X3. The presence test comes before the quotes are removed: a variable set
    to nothing but double quotes passes it, and [mustEnv] returns the empty
    string without throwing. *)
Theorem mustEnv_only_quotes_is_empty (W : World) (key : string) (t : Trace) (n : nat) :
  process_env W !! key = Some (quotes (S n)) ->
  mustEnv W key t = (t, Normal "").
Proof.
  intros Henv. unfold mustEnv, throw, ret. rewrite Henv.
  cbn [quotes Js.truthy_opt Js.truthy negb template].
  change (String Js.quote_char (quotes n)) with (quotes (S n)).
  rewrite (trim_visible_ends (quotes (S n)) Js.quote_char Js.quote_char);
    [| reflexivity | unfold last_byte; rewrite rev_quotes; reflexivity
     | reflexivity | reflexivity ].
  unfold Js.strip_quotes. rewrite drop_quotes_quotes. reflexivity.
Qed.

Lemma mustEnv_only_quotes_is_empty_witness :
  mustEnv MoreSamples.quoted "FILEBASE_GATEWAY" start = (start, Normal "").
Proof.
  apply (mustEnv_only_quotes_is_empty MoreSamples.quoted "FILEBASE_GATEWAY" start 1).
  vm_compute. reflexivity.
Defined.

(** ** [randomKey] *)

Lemma all_bytes_app (p : ascii -> bool) (a b : string) :
  all_bytes p (a +:+ b) = all_bytes p a && all_bytes p b.
Proof.
  induction a as [|c a IH]; [reflexivity|].
  rewrite append_cons. cbn [all_bytes]. rewrite IH. apply andb_assoc.
Qed.

Lemma replace_ws_runs_no_blank (n : nat) :
  forall (s : string) (in_run : bool),
    (String.length s <= n)%nat ->
    all_bytes not_blank (Js.replace_ws_runs in_run s) = true.
Proof.
  induction n as [|n IH]; intros s in_run Hlen.
  - destruct s; [reflexivity | cbn in Hlen; lia].
  - destruct s as [|c1 r1]; [reflexivity|]. cbn [String.length] in Hlen.
    assert (Hmark : all_bytes not_blank (if in_run then "" else "_") = true)
      by (destruct in_run; reflexivity).
    cbn [Js.replace_ws_runs]. destruct (Js.is_ws1 c1) eqn:H1.
    { rewrite all_bytes_app, Hmark, IH by lia. reflexivity. }
    assert (Hc1 : not_blank c1 = true) by (unfold not_blank; rewrite H1; reflexivity).
    destruct r1 as [|c2 r2]; [cbn; rewrite Hc1; reflexivity|].
    cbn [String.length] in Hlen.
    destruct (Js.is_ws2 c1 c2).
    { rewrite all_bytes_app, Hmark, IH by lia. reflexivity. }
    destruct r2 as [|c3 r3].
    { cbn [all_bytes]. rewrite Hc1, IH by (cbn; lia). reflexivity. }
    cbn [String.length] in Hlen.
    destruct (Js.is_ws3 c1 c2 c3).
    { rewrite all_bytes_app, Hmark, IH by lia. reflexivity. }
    cbn [all_bytes]. rewrite Hc1, IH by (cbn; lia). reflexivity.
Qed.

Lemma replace_ws_runs_visible (s : string) :
  all_bytes visible s = true -> Js.replace_ws_runs false s = s.
Proof.
  induction s as [|c1 r1 IH]; [reflexivity|].
  cbn [all_bytes]. intros [H1 Hr]%andb_true_iff. specialize (IH Hr).
  cbn [Js.replace_ws_runs]. rewrite (visible_not_ws1 c1 H1).
  destruct r1 as [|c2 r2]; [reflexivity|].
  rewrite (visible_not_ws2_l c1 c2 H1).
  destruct r2 as [|c3 r3]; [rewrite IH; reflexivity|].
  rewrite (visible_not_ws3_l c1 c2 c3 H1), IH. reflexivity.
Qed.

(** X4. [randomKey] sends nothing to the store and returns
    [prefix/<clock>-<random digits>-<safe>], where [safe] holds no ASCII
    white space, and is the file name itself when that consists of ASCII
    characters other than white space. *)
Theorem randomKey_sanitizes (W : World) (prefix filename : string) (t : Trace) :
  exists safe t',
    randomKey W prefix filename t
    = (t', Normal (prefix +:+ "/" +:+ pretty (Date_now W (clock_reads t)) +:+ "-"
                   +:+ Js.slice 2 (Math_random_toString16 W (random_reads t))
                   +:+ "-" +:+ safe))
    /\ sent t' = sent t
    /\ all_bytes not_blank safe = true
    /\ (all_bytes visible filename = true -> safe = filename).
Proof.
  exists (Js.replace_ws_runs false filename). eexists. split; [reflexivity|].
  split; [reflexivity|]. split.
  - eapply replace_ws_runs_no_blank. reflexivity.
  - apply replace_ws_runs_visible.
Qed.

(** ** [getCidByHead] *)

Lemma or_truthy (a b : option string) : Js.truthy_opt a = true -> Js.or a b = a.
Proof. unfold Js.or. intros ->. reflexivity. Qed.

Lemma or_falsy (a b : option string) : Js.truthy_opt a = false -> Js.or a b = b.
Proof. unfold Js.or. intros ->. reflexivity. Qed.

(** X5. When the store answers the HEAD query, [getCidByHead] has sent that
    one command and returns the first non-empty value among [Metadata.cid],
    [Metadata.CID] and the headers [x-amz-meta-cid] and [X-Amz-Meta-Cid], in
    this order; what it returns is empty or undefined only when all four
    are. *)
Theorem getCidByHead_first_truthy (W : World) (s3 : S3Client) (bucket key : string)
    (t : Trace) (out : Output) :
  send W (sent t) s3 (HeadObjectCommand bucket key) = Normal out ->
  exists t' cid,
    getCidByHead W s3 bucket key t = (t', Normal cid)
    /\ sent t' = sent t ++ [(s3, HeadObjectCommand bucket key)]
    /\ (Js.truthy_opt cid = true ->
        exists i, candidates out !! i = Some cid
                  /\ forall j c, (j < i)%nat -> candidates out !! j = Some c ->
                                 Js.truthy_opt c = false)
    /\ (Js.truthy_opt cid = false ->
        Forall (fun c => Js.truthy_opt c = false) (candidates out)).
Proof.
  intros Hsend. unfold getCidByHead, bind, s3_send, ret. rewrite Hsend.
  eexists _, _. split; [reflexivity|]. split; [reflexivity|].
  unfold candidates.
  destruct (Js.truthy_opt (object_metadata out "cid")) eqn:H0.
  { rewrite !(or_truthy (object_metadata out "cid") _ H0).
    split; [|intros E; rewrite H0 in E; discriminate E].
    intros _. exists 0%nat. split; [reflexivity|]. intros; lia. }
  rewrite (or_falsy _ _ H0).
  destruct (Js.truthy_opt (object_metadata out "CID")) eqn:H1.
  { rewrite !(or_truthy (object_metadata out "CID") _ H1).
    split; [|intros E; rewrite H1 in E; discriminate E].
    intros _. exists 1%nat. split; [reflexivity|].
    intros j c Hj Hc. destruct j as [|j]; [|lia]. cbn in Hc. by simplify_eq. }
  rewrite (or_falsy _ _ H1).
  destruct (Js.truthy_opt (http_header out "x-amz-meta-cid")) eqn:H2.
  { rewrite (or_truthy _ _ H2).
    split; [|intros E; rewrite H2 in E; discriminate E].
    intros _. exists 2%nat. split; [reflexivity|].
    intros j c Hj Hc. destruct j as [|[|j]]; [| |lia]; cbn in Hc; by simplify_eq. }
  rewrite (or_falsy _ _ H2). split.
  - intros H3. exists 3%nat. split; [reflexivity|].
    intros j c Hj Hc. destruct j as [|[|[|j]]]; [| | |lia]; cbn in Hc; by simplify_eq.
  - intros H3. repeat constructor; assumption.
Qed.

Lemma getCidByHead_first_truthy_witness :
  exists t' cid,
    getCidByHead Samples.filebase (s3_client Samples.filebase) "nft" "images/cat.png" start
    = (t', Normal cid)
    /\ sent t'
       = sent start ++ [(s3_client Samples.filebase, HeadObjectCommand "nft" "images/cat.png")]
    /\ (Js.truthy_opt cid = true ->
        exists i, candidates (Samples.head_answer "QmImage") !! i = Some cid
                  /\ forall j c, (j < i)%nat ->
                                 candidates (Samples.head_answer "QmImage") !! j = Some c ->
                                 Js.truthy_opt c = false)
    /\ (Js.truthy_opt cid = false ->
        Forall (fun c => Js.truthy_opt c = false)
               (candidates (Samples.head_answer "QmImage"))).
Proof.
  apply (getCidByHead_first_truthy Samples.filebase (s3_client Samples.filebase)
           "nft" "images/cat.png" start (Samples.head_answer "QmImage")).
  reflexivity.
Defined.

End Helpers.

(** * More on the runs of the handler *)

Module Runs.
Import Route Observations RunTactics Helpers.

Lemma images_not_metadata (x y : string) : "images" +:+ x <> "metadata" +:+ y.
Proof. intros H. apply (f_equal first_byte) in H. discriminate H. Qed.

Lemma startsWith_app (p x : string) : Js.startsWith (p +:+ x) p = true.
Proof.
  unfold Js.startsWith. induction p as [|c p IH].
  - destruct x; reflexivity.
  - rewrite append_cons. cbn [String.prefix].
    destruct (ascii_dec c c); [exact IH | congruence].
Qed.

Lemma images_key_prefix (x : string) :
  Js.startsWith ("images" +:+ "/" +:+ x) "images/" = true.
Proof. apply (startsWith_app "images/" x). Qed.

Lemma metadata_key_prefix (x : string) :
  Js.startsWith ("metadata" +:+ "/" +:+ x) "metadata/" = true.
Proof. apply (startsWith_app "metadata/" x). Qed.

(** X6. A run of the handler sends at most four commands to the store, at
    most two of them writes; it reads the clock and the random source once
    for each write and not otherwise; and every command goes through the
    client built from the configuration, to the configured bucket. *)
Theorem run_shape (W : World) (req : Request) (t : Trace) (r : Completion Response) :
  POST W req start = (t, r) ->
  (length (sent t) <= 4)%nat
  /\ (length (puts t) <= 2)%nat
  /\ clock_reads t = length (puts t)
  /\ random_reads t = length (puts t)
  /\ Forall (through_config W) (sent t).
Proof.
  intros Hrun. revert Hrun. exec.
  all: intros [= <- <-].
  all: cbv beta iota zeta delta [puts List.filter is_put snd sent clock_reads random_reads
                                 app length].
  all: repeat split; try lia.
  all: repeat constructor.
Qed.

Lemma run_shape_witness :
  (length (sent Samples.png_run.1) <= 4)%nat
  /\ (length (puts Samples.png_run.1) <= 2)%nat
  /\ clock_reads Samples.png_run.1 = length (puts Samples.png_run.1)
  /\ random_reads Samples.png_run.1 = length (puts Samples.png_run.1)
  /\ Forall (through_config Samples.filebase) (sent Samples.png_run.1).
Proof.
  apply (run_shape Samples.filebase Samples.upload_png Samples.png_run.1 Samples.png_run.2).
  vm_compute. reflexivity.
Defined.

(** X7. Whatever a run writes is either the file of the request, under
    images/ and with the content type of the file, which starts with
    "image/", or a JSON object under metadata/; and no two writes of a run
    go to the same key. *)
Theorem writes_are_typed (W : World) (req : Request) (t : Trace)
    (r : Completion Response) :
  POST W req start = (t, r) ->
  Forall (write_kind req) (sent t)
  /\ NoDup (map (fun c : Call => command_key c.2) (puts t)).
Proof.
  intros Hrun. revert Hrun. exec.
  all: intros [= <- <-].
  all: cbv beta iota zeta delta [puts List.filter is_put snd sent app map].
  all: split; [|repeat apply NoDup_cons_2; try apply NoDup_nil_2;
                try apply not_elem_of_nil;
                try (apply not_elem_of_cons; split;
                     [apply images_not_metadata | apply not_elem_of_nil])].
  all: repeat (apply Forall_cons; split); try apply Forall_nil.
  all: unfold write_kind; cbn [snd]; try exact I.
  all: first
    [ right; split; [apply metadata_key_prefix | reflexivity]
    | left; split; [apply images_key_prefix|]; split; [assumption|];
      eexists; split; [unfold file_payload; rewrite Heqc, Heqo; reflexivity|];
      split; reflexivity ].
Qed.

Lemma writes_are_typed_witness :
  Forall (write_kind Samples.upload_png) (sent Samples.png_run.1)
  /\ NoDup (map (fun c : Call => command_key c.2) (puts Samples.png_run.1)).
Proof.
  apply (writes_are_typed Samples.filebase Samples.upload_png Samples.png_run.1
           Samples.png_run.2).
  vm_compute. reflexivity.
Defined.

(** X8. In every run, whatever its outcome, a write under metadata/ is not
    the first command: the image write has been answered and its identifier
    resolved, and the object written is a metadata document whose image is
    "ipfs://" followed by that identifier. *)
Theorem metadata_references_resolved_image (W : World) (req : Request) (t : Trace)
    (r : Completion Response) (i : nat) (s3 : S3Client) (bucket key : string)
    (bytes : list Byte.byte) (ct : string) :
  POST W req start = (t, r) ->
  sent t !! i = Some (s3, PutObjectCommand bucket key bytes ct) ->
  Js.startsWith key "metadata/" = true ->
  (0 < i)%nat
  /\ is_Some (answer W t 0)
  /\ Js.truthy_opt (resolved W t 0) = true
  /\ exists name description type,
       bytes = Buffer_from
                 (Json.stringify2
                    (metadata_document name description
                       ("ipfs://" +:+ template (resolved W t 0)) type)).
Proof.
  intros Hrun Hlook Hkey. revert Hrun. exec.
  all: intros [= <- <-].
  all: cbv beta iota zeta delta [sent app] in Hlook.
  all: destruct i as [|[|[|[|i]]]]; try discriminate Hlook.
  all: injection Hlook as <- <- <- <- <-.
  all: try (rewrite Upload.images_key_not_metadata in Hkey; discriminate Hkey).
  all: split; [lia|].
  all: name_config W.
  all: cbv beta iota zeta delta [resolved answer cid_of_put cid_of_head sent take
                                 lookup list_lookup app] in *.
  all: repeat match goal with
              | H : send ?W ?h ?s ?c = _ |- context [send ?W ?h ?s ?c] => rewrite H
              end.
  all: repeat match goal with
              | H : ?b = _ |- context [if ?b then _ else _] => rewrite H
              end.
  all: split; [by eexists|]; split; [assumption|].
  all: eexists _, _, _; reflexivity.
Qed.

Lemma metadata_references_resolved_image_witness :
  exists bytes,
    (0 < 2)%nat
    /\ is_Some (answer Samples.filebase Samples.png_run.1 0)
    /\ Js.truthy_opt (resolved Samples.filebase Samples.png_run.1 0) = true
    /\ exists name description type,
         bytes = Buffer_from
                   (Json.stringify2
                      (metadata_document name description
                         ("ipfs://" +:+ template (resolved Samples.filebase
                                                    Samples.png_run.1 0)) type)).
Proof.
  eexists.
  eapply (metadata_references_resolved_image Samples.filebase Samples.upload_png
            Samples.png_run.1 Samples.png_run.2 2).
  - vm_compute. reflexivity.
  - vm_compute. reflexivity.
  - vm_compute. reflexivity.
Defined.

(** X9. When the metadata write and the HEAD query after it are both
    answered without identifier, the response is 500 with the error about
    the metadata CID and the run ends there, after its two writes: the image
    has been stored and resolved, and nothing is sent to take it back. *)
Theorem metadata_cid_missing_keeps_image (W : World) (req : Request) (t : Trace)
    (resp : Response) (j : nat) (c : Call) (out hout : Output) :
  POST W req start = (t, Normal resp) ->
  sent t !! S j = Some c -> is_put c = true ->
  answer W t (S j) = Some out ->
  Js.truthy_opt (cid_of_put out) = false ->
  answer W t (S (S j)) = Some hout ->
  Js.truthy_opt (cid_of_head hout) = false ->
  resp = json_response 500 (JObject [("error", JString error_meta_cid_missing)])
  /\ length (sent t) = S (S (S j))
  /\ length (puts t) = 2%nat
  /\ Js.truthy_opt (resolved W t 0) = true.
Proof.
  intros Hrun Hlook Hisput Hput Hnoput Hhead Hnohead. revert Hrun. exec.
  all: intros [= <- <-].
  all: name_config W.
  all: destruct j as [|[|[|j]]].
  all: cbv beta iota zeta delta [resolved answer cid_of_put cid_of_head sent take
                                 lookup list_lookup app puts List.filter is_put
                                 snd length] in *.
  all: try discriminate.
  all: injection Hlook as <-; try discriminate Hisput.
  all: use_answers; simplify_eq; try congruence.
  all: repeat match goal with
              | H : send ?W ?h ?s ?c = _ |- context [send ?W ?h ?s ?c] => rewrite H
              end.
  all: repeat match goal with
              | H : ?b = _ |- context [if ?b then _ else _] => rewrite H
              end.
  all: repeat split; assumption.
Qed.

Lemma metadata_cid_missing_keeps_image_witness :
  MoreSamples.meta_cid_missing
  = json_response 500 (JObject [("error", JString error_meta_cid_missing)])
  /\ length (sent MoreSamples.lost_run.1) = 4%nat
  /\ length (puts MoreSamples.lost_run.1) = 2%nat
  /\ Js.truthy_opt (resolved MoreSamples.meta_lost MoreSamples.lost_run.1 0) = true.
Proof.
  eapply (metadata_cid_missing_keeps_image MoreSamples.meta_lost Samples.upload_png
            MoreSamples.lost_run.1 MoreSamples.meta_cid_missing 1 _
            Samples.no_answer Samples.no_answer).
  all: vm_compute; reflexivity.
Defined.

(** X10. A response with status 400 means that the run had no effect at all:
    no command was sent to the store, nothing was logged, and neither the
    clock nor the random source was read. *)
Theorem rejection_has_no_effect (W : World) (req : Request) (t t' : Trace)
    (resp : Response) :
  POST W req t = (t', Normal resp) ->
  status resp = 400 ->
  t' = t.
Proof.
  intros Hrun Hstatus. revert Hrun. exec.
  all: intros [= <- <-]; try discriminate Hstatus.
  all: reflexivity.
Qed.

Lemma rejection_has_no_effect_witness : MoreSamples.no_file_run.1 = start.
Proof.
  apply (rejection_has_no_effect Samples.filebase Samples.no_file start
           MoreSamples.no_file_run.1
           (json_response 400 (JObject [("error", JString "File missing")]))).
  - vm_compute. reflexivity.
  - reflexivity.
Defined.

(** X11. [console.error] is called once, with the exception, when the body
    of the [try] throws, and is not called otherwise: the 400 answers and the
    two answers about a missing CID are not logged. *)
Theorem only_exceptions_are_logged (W : World) (req : Request) (t t' : Trace)
    (r : Completion Response) :
  POST W req t = (t', r) ->
  match POST_try W req t with
  | (_, Throw e) => console_error t' = console_error t ++ [e]
  | (_, Normal _) => console_error t' = console_error t
  end.
Proof.
  intros Hrun. revert Hrun. exec.
  all: intros [= <- <-]; reflexivity.
Qed.

Lemma only_exceptions_are_logged_witness :
  match POST_try Samples.store_down Samples.upload_png start with
  | (_, Throw e) => console_error MoreSamples.down_run.1 = console_error start ++ [e]
  | (_, Normal _) => console_error MoreSamples.down_run.1 = console_error start
  end.
Proof.
  apply (only_exceptions_are_logged Samples.store_down Samples.upload_png start
           MoreSamples.down_run.1 MoreSamples.down_run.2).
  vm_compute. reflexivity.
Defined.

End Runs.

(** * More on the mint page *)

Module Screen.
Import Page PageObservations Workflow.

Lemma paired_snoc_upload (n : nat) :
  forall (log : list Outgoing) f name d,
    (length log <= n)%nat ->
    paired (log ++ [FetchUpload f name d]) = paired log.
Proof.
  induction n as [|n IH]; intros log f name d Hlen.
  - destruct log; [reflexivity | cbn in Hlen; lia].
  - destruct log as [|[f1 n1 d1|u1 n1 fee1] rest]; [reflexivity| |reflexivity].
    cbn [length] in Hlen. destruct rest as [|[f2 n2 d2|u2 n2 fee2] rest'].
    + reflexivity.
    + change (paired ((FetchUpload f2 n2 d2 :: rest') ++ [FetchUpload f name d])
              = paired (FetchUpload f2 n2 d2 :: rest')).
      apply IH. cbn [length] in *. lia.
    + cbn [app paired]. rewrite IH by (cbn [length] in Hlen; lia). reflexivity.
Qed.

Lemma paired_snoc_create (n : nat) :
  forall (log : list Outgoing) f name d uri,
    (length log <= n)%nat ->
    paired log = true -> Js.truthy uri = true ->
    paired (log ++ [FetchUpload f name d; NftsCreate uri name 0]) = true.
Proof.
  induction n as [|n IH]; intros log f name d uri Hlen Hlog Huri.
  - destruct log; [|cbn in Hlen; lia]. cbn. rewrite String.eqb_refl, Huri. reflexivity.
  - destruct log as [|[f1 n1 d1|u1 n1 fee1] rest]; [| |discriminate Hlog].
    { cbn. rewrite String.eqb_refl, Huri. reflexivity. }
    cbn [length] in Hlen. destruct rest as [|[f2 n2 d2|u2 n2 fee2] rest'].
    + cbn. rewrite String.eqb_refl, Huri. reflexivity.
    + change (paired ((FetchUpload f2 n2 d2 :: rest')
                      ++ [FetchUpload f name d; NftsCreate uri name 0]) = true).
      apply IH; [cbn [length] in *; lia | exact Hlog | exact Huri].
    + cbn [app paired] in *. apply andb_true_iff in Hlog as [Hhead Hrest].
      rewrite Hhead, IH by (try (cbn [length] in Hlen; lia); assumption). reflexivity.
Qed.

Lemma resume_resolved (res : HttpResponse) (u u' : State) (uri : string) :
  uploadToStorage_resume res u = (u', Resolved uri) ->
  res_ok res = true
  /\ uri <> ""
  /\ (exists data, Js.truthy (res_text res) = true /\ res_parse res = Some data
                   /\ data_metadataUrl data = Some uri)
  /\ metadataUrl u' = Some uri
  /\ busy u' = busy u /\ mintAddress u' = mintAddress u /\ status u' = status u
  /\ metadataGatewayUrl u' <> Some "" /\ imageGatewayUrl u' <> Some "".
Proof.
  unfold uploadToStorage_resume.
  destruct (Js.truthy (res_text res)) eqn:Htext.
  - destruct (res_parse res) as [data|]; [|discriminate].
    destruct (res_ok res); [|discriminate]. cbn [negb].
    destruct (data_metadataUrl data) as [[|c m]|] eqn:Hurl; cbn; try discriminate.
    intros [= <- <-]. repeat split; try discriminate.
    + exists data. by rewrite Hurl.
    + cbn. unfold or_null. by destruct (data_metadataGatewayUrl data) as [[|]|].
    + cbn. unfold or_null. by destruct (data_imageGatewayUrl data) as [[|]|].
  - destruct (res_ok res); cbn; discriminate.
Qed.

Lemma rejected_inv {A : Type} (u u' : State) (e e' : Exn) :
  (u, @Rejected A e) = (u', Rejected e') -> u' = u /\ e' = e.
Proof. by intros [= <- <-]. Qed.

Lemma append_not_empty (c : ascii) (s t : string) : String c s +:+ t <> "".
Proof. change (String c (s +:+ t) <> ""). discriminate. Qed.

Lemma resume_rejected (res : HttpResponse) (u u' : State) (e : Exn) :
  uploadToStorage_resume res u = (u', Rejected e) ->
  u' = u /\ exists msg, message e = Some msg /\ msg <> "".
Proof.
  unfold uploadToStorage_resume.
  destruct (if Js.truthy (res_text res) then res_parse res else _) as [data|].
  - destruct (res_ok res); cbn [negb].
    + destruct (Js.truthy_opt (data_metadataUrl data)); cbn [negb]; [discriminate|].
      intros [-> ->]%rejected_inv. split; [reflexivity|].
      eexists. split; [reflexivity|discriminate].
    + intros [-> ->]%rejected_inv. split; [reflexivity|]. eexists. split; [reflexivity|].
      unfold Route.or_default. destruct (data_error data) as [[|c m]|].
      * apply append_not_empty.
      * discriminate.
      * apply append_not_empty.
  - intros [-> ->]%rejected_inv. split; [reflexivity|]. eexists. split; [reflexivity|].
    apply append_not_empty.
Qed.

Lemma sole_task (s : System) (i : nat) (x : Task) :
  single_flight s -> pending s !! i = Some x -> pending s = [x] /\ i = 0%nat.
Proof.
  unfold single_flight, in_flight. intros [Hlen _] Hi.
  destruct (pending s) as [|y [|z l]]; cbn [length] in Hlen; [done| |lia].
  destruct i as [|i]; [|done]. cbn in Hi. by simplify_eq.
Qed.

Lemma truthy_not_empty (s : string) : s <> "" -> Js.truthy s = true.
Proof. by destruct s. Qed.

Lemma coherent_settled (u : State) (l : list Outgoing) :
  busy u = false -> paired l = true ->
  metadataUrl u <> Some "" -> metadataGatewayUrl u <> Some "" ->
  imageGatewayUrl u <> Some "" ->
  coherent {| ui := u; pending := []; outgoing := l |}.
Proof.
  intros Hbusy Hlog Hm Hg Hi. unfold coherent, single_flight, in_flight. page_simpl.
  cbn [length]. repeat split; try done. lia.
Qed.

Lemma coherent_step (s : System) (ev : Event) : coherent s -> coherent (step s ev).
Proof.
  intros (Hsf & Hidle & Hmint & Hlog & Hlast & Hm & Hg & Hi).
  destruct ev as [v|v|f|c k| |i r|i r].
  1-4: by split; [apply (single_flight_step s _ Hsf)|].
  - unfold step, click. destruct (disabled (ui s)) eqn:Hd; [done|].
    pose proof (enabled_not_busy s Hd) as Hb.
    pose proof (single_flight_idle s Hsf Hb) as Hp.
    destruct s as [u p l]. cbn [ui pending outgoing] in *. subst p.
    unfold onClick. cbn [ui pending outgoing].
    destruct (negb (wallet_connected u) || _);
      [by apply coherent_settled; page_simpl|].
    destruct (negb (bool_decide (is_Some (metaplex u))));
      [by apply coherent_settled; page_simpl|].
    destruct (file u) as [f|]; [|by apply coherent_settled; page_simpl].
    unfold coherent, single_flight, in_flight. page_simpl. cbn [length].
    repeat split; try done.
    + by rewrite (paired_snoc_upload (length l)).
    + simplify_eq. by eexists _, _, _.
  - unfold step, fetch_settled. destruct (pending s !! i) as [[n|]|] eqn:Hi'; try done.
    destruct (sole_task s i _ Hsf Hi') as [Hp ->].
    destruct (Hlast n Hp) as (_ & l & f & d & Hout).
    destruct s as [u p l']. cbn [ui pending outgoing] in *. subst p l'.
    rewrite paired_snoc_upload with (n := length l) in Hlog by lia.
    destruct r as [res|e].
    + destruct (uploadToStorage_resume res u) as [u' [uri|e]] eqn:Hres.
      * apply resume_resolved in Hres
          as (_ & Huri & _ & Hm' & Hb' & Hma' & _ & Hg' & Hi'').
        unfold coherent, single_flight, in_flight. page_simpl.
        change (<[0%nat:=AwaitCreate]> [AwaitUpload n]) with [AwaitCreate].
        cbn [length]. rewrite Hb', Hma', Hm', <- app_assoc. cbn [app].
        repeat split; try done.
        -- intros _. by apply Hsf.
        -- intros _. by apply Hmint.
        -- apply paired_snoc_create with (n := length l); [lia|done|].
           by apply truthy_not_empty.
        -- by intros [= ->].
      * apply resume_rejected in Hres as [-> _]. unfold fail, finish. page_simpl.
        apply coherent_settled; try done. by rewrite (paired_snoc_upload (length l)).
    + unfold fail, finish. page_simpl.
      apply coherent_settled; try done. by rewrite (paired_snoc_upload (length l)).
  - unfold step, create_settled. destruct (pending s !! i) as [[n|]|] eqn:Hi'; try done.
    destruct (sole_task s i _ Hsf Hi') as [Hp ->].
    destruct s as [u p l]. cbn [ui pending outgoing] in *. subst p.
    destruct r as [address|e]; unfold fail, finish; page_simpl; by apply coherent_settled.
Qed.

Lemma coherent_run (evs : list Event) : coherent (run evs).
Proof.
  unfold run. assert (H : coherent initial).
  { unfold initial. by apply coherent_settled. }
  revert H. generalize initial. induction evs as [|ev evs IH]; intros s Hs; [done|].
  cbn [fold_left]. apply IH. by apply coherent_step.
Qed.

Lemma paired_lookup (n : nat) :
  forall (log : list Outgoing) (i : nat) uri name fee,
    (length log <= n)%nat -> paired log = true ->
    log !! i = Some (NftsCreate uri name fee) ->
    fee = 0 /\ uri <> ""
    /\ exists j f d, i = S j /\ log !! j = Some (FetchUpload f name d).
Proof.
  induction n as [|n IH]; intros log i uri name fee Hlen Hlog Hi.
  - destruct log; [done | cbn in Hlen; lia].
  - destruct log as [|[f1 n1 d1|u1 n1 fee1] rest]; [done| |done].
    cbn [length] in Hlen. destruct i as [|i]; [done|].
    change (rest !! i = Some (NftsCreate uri name fee)) in Hi.
    destruct rest as [|[f2 n2 d2|u2 n2 fee2] rest']; [done| |].
    + assert (Hlen' : (length (FetchUpload f2 n2 d2 :: rest') <= n)%nat) by lia.
      destruct (IH _ i uri name fee Hlen' Hlog Hi) as (Hfee & Huri & j & f & d & -> & Hj).
      repeat split; [done..|]. by exists (S j), f, d.
    + cbn [paired] in Hlog. cbn [length] in Hlen.
      apply andb_true_iff in Hlog as [Hhead Hrest].
      apply andb_true_iff in Hhead as [Hhead Hu2].
      apply andb_true_iff in Hhead as [Hname Hfee].
      apply String.eqb_eq in Hname as ->. apply Z.eqb_eq in Hfee as ->.
      destruct i as [|i].
      * cbn in Hi. simplify_eq. repeat split; [by destruct uri|]. by exists 0%nat, f1, d1.
      * change (rest' !! i = Some (NftsCreate uri name fee)) in Hi.
        assert (Hlen' : (length rest' <= n)%nat) by lia.
        destruct (IH _ i uri name fee Hlen' Hrest Hi)
          as (Hfee & Huri & j & f & d & -> & Hj).
        repeat split; [done..|]. by exists (S (S j)), f, d.
Qed.

(** X12. After any sequence of events the page shows itself busy exactly while
    a run of [mintNft] is suspended: every way a run ends (the mint is
    confirmed, the upload or the mint is rejected, the upload answer is
    refused) resets [busy], so the button never stays locked. *)
Theorem busy_exactly_while_in_flight (evs : list Event) :
  busy (ui (run evs)) = match pending (run evs) with [] => false | _ :: _ => true end
  /\ disabled (ui (run evs))
     = negb (wallet_connected (ui (run evs)))
       || match pending (run evs) with [] => false | _ :: _ => true end.
Proof.
  destruct (coherent_run evs) as ((_ & Hbusy) & Hidle & _).
  unfold disabled. destruct (pending (run evs)) as [|x l].
  - by rewrite Hidle.
  - by rewrite Hbusy.
Qed.

(** X13. Every mint request the page sends directly follows an upload request
    of the same run: it carries the name that was sent with the upload, a
    non-empty URI, and no royalty. *)
Theorem mint_follows_its_upload (evs : list Event) (i : nat) (uri name : string)
    (fee : Z) :
  outgoing (run evs) !! i = Some (NftsCreate uri name fee) ->
  fee = 0 /\ uri <> ""
  /\ exists j f d, i = S j /\ outgoing (run evs) !! j = Some (FetchUpload f name d).
Proof.
  destruct (coherent_run evs) as (_ & _ & _ & Hlog & _).
  by apply paired_lookup with (n := length (outgoing (run evs))).
Qed.

Lemma mint_follows_its_upload_witness :
  outgoing (run PageSamples.whole_workflow) !! 1%nat
  = Some (NftsCreate "ipfs://QmMeta" "My NFT" 0)
  /\ exists j f d, 1%nat = S j
     /\ outgoing (run PageSamples.whole_workflow) !! j = Some (FetchUpload f "My NFT" d).
Proof.
  split; [reflexivity|].
  apply (mint_follows_its_upload PageSamples.whole_workflow 1 "ipfs://QmMeta" "My NFT" 0).
  reflexivity.
Defined.

(** X14. While a run is suspended no mint address is shown: the address of an
    earlier mint is cleared by the click and set again only when the run
    ends with a confirmed mint. *)
Theorem no_mint_address_in_flight (evs : list Event) :
  pending (run evs) <> [] -> mintAddress (ui (run evs)) = None.
Proof. destruct (coherent_run evs) as (_ & _ & Hmint & _). exact Hmint. Qed.

Lemma no_mint_address_in_flight_witness :
  pending (run PageSamples.first_click) <> []
  /\ mintAddress (ui (run PageSamples.first_click)) = None.
Proof.
  split; [discriminate|].
  apply (no_mint_address_in_flight PageSamples.first_click). discriminate.
Defined.

(** X15. The three links the page shows are never the empty string: each is
    [null] or a non-empty string after any sequence of events. *)
Theorem links_never_empty (evs : list Event) :
  metadataUrl (ui (run evs)) <> Some ""
  /\ metadataGatewayUrl (ui (run evs)) <> Some ""
  /\ imageGatewayUrl (ui (run evs)) <> Some "".
Proof. by destruct (coherent_run evs) as (_ & _ & _ & _ & _ & Hm & Hg & Hi). Qed.

(** X16. [uploadToStorage] returns a URI only for an answer that is [ok], has
    a non-empty body that parses, and carries a non-empty [metadataUrl]: the
    URI is that [metadataUrl], and it is what the page then shows.  The part
    of the function that runs after the fetch sets the three links and
    nothing else; the status it leaves is the one the fetch found, which in
    every run of the page is the text [uploadToStorage] itself set before
    the fetch. *)
Theorem upload_accepted_needs_metadata_url (res : HttpResponse) (u u' : State)
    (uri : string) :
  uploadToStorage_resume res u = (u', Resolved uri) ->
  res_ok res = true
  /\ uri <> ""
  /\ (exists data, Js.truthy (res_text res) = true /\ res_parse res = Some data
                   /\ data_metadataUrl data = Some uri)
  /\ metadataUrl u' = Some uri
  /\ busy u' = busy u /\ mintAddress u' = mintAddress u /\ status u' = status u
  /\ name u' = name u /\ description u' = description u /\ file u' = file u
  /\ (forall evs n,
        u = ui (run evs) -> pending (run evs) = [AwaitUpload n] ->
        status u' = "Uploading image + metadata to Filebase (IPFS)...").
Proof.
  intros H. destruct (resume_resolved res u u' uri H)
    as (Hok & Huri & Hdata & Hm & Hb & Hma & Hs & _).
  repeat split; try done.
  1-3: revert H; unfold uploadToStorage_resume; repeat case_match; by intros [= <- _].
  intros evs n -> Hp. destruct (coherent_run evs) as (_ & _ & _ & _ & Hlast & _).
  destruct (Hlast n Hp) as [Hstatus _]. by rewrite Hs.
Qed.

(** The answer [uploaded] reaches the page after the first click. *)
Lemma upload_accepted_needs_metadata_url_witness :
  res_ok PageSamples.uploaded = true
  /\ metadataUrl
       (uploadToStorage_resume PageSamples.uploaded (ui (run PageSamples.first_click))).1
     = Some "ipfs://QmMeta"
  /\ status
       (uploadToStorage_resume PageSamples.uploaded (ui (run PageSamples.first_click))).1
     = "Uploading image + metadata to Filebase (IPFS)...".
Proof.
  destruct (upload_accepted_needs_metadata_url PageSamples.uploaded
              (ui (run PageSamples.first_click))
              (uploadToStorage_resume PageSamples.uploaded
                 (ui (run PageSamples.first_click))).1
              "ipfs://QmMeta" eq_refl)
    as (Hok & _ & _ & Hm & _ & _ & _ & _ & _ & _ & Hstatus).
  split; [exact Hok|]. split; [exact Hm|].
  exact (Hstatus PageSamples.first_click "My NFT" eq_refl eq_refl).
Defined.

(** X17. When [uploadToStorage] throws, no link has been set (the state is
    the one it started from), the error carries a non-empty message, and for
    an answer that is not [ok] and whose body parses to an object with a
    non-empty [error], the message is that [error]. *)
Theorem upload_refused_sets_nothing (res : HttpResponse) (u u' : State) (e : Exn) :
  uploadToStorage_resume res u = (u', Rejected e) ->
  u' = u
  /\ exists msg, message e = Some msg /\ msg <> ""
     /\ forall data err,
          Js.truthy (res_text res) = true -> res_parse res = Some data ->
          res_ok res = false -> data_error data = Some err -> err <> "" -> msg = err.
Proof.
  intros H. destruct (resume_rejected res u u' e H) as (-> & msg & Hmsg & Hne).
  split; [reflexivity|]. exists msg. repeat split; try done.
  intros data err Htext Hparse Hok Herr Hnonempty. revert H Hmsg.
  unfold uploadToStorage_resume. rewrite Htext, Hparse, Hok. cbn [negb].
  intros [_ ->]%rejected_inv. unfold Error, Route.or_default. cbn [message].
  rewrite Herr. destruct err; [done|]. by intros [= <-].
Qed.

Lemma upload_refused_sets_nothing_witness :
  (uploadToStorage_resume MoreSamples.refused (ui initial)).1 = ui initial
  /\ exists msg, message (Error "Only image files are allowed") = Some msg /\ msg <> ""
     /\ forall data err,
          Js.truthy (res_text MoreSamples.refused) = true ->
          res_parse MoreSamples.refused = Some data ->
          res_ok MoreSamples.refused = false -> data_error data = Some err ->
          err <> "" -> msg = err.
Proof.
  apply (upload_refused_sets_nothing MoreSamples.refused (ui initial)). reflexivity.
Defined.

End Screen.
